(** * SQLite MCP server: the statement gateway, path resolver and schema
      inspector of [sqlite_mcp_server.py], as a shallow embedding.

    The Python functions are translated one by one, keeping their names.
    The SQLite client library ([sqlite3]), the file system and the clock are
    external collaborators: they are an abstract [Engine] whose operations
    transform an engine state and may raise.  Every call the code makes into
    the library is recorded, in order, in a trace of [event]s, so that
    properties such as "no connection is opened" or "VACUUM runs before
    ANALYZE" are statements about that trace.

    Modelling conventions:
    - a Python [str] is a [string]; the characters are ASCII code points
      (the upper-casing and white-space tests below are the ASCII part of
      Python's, bytes from 128 on are left alone);
    - a Python [dict] is an association list in insertion order with unique
      keys, updated by [dict_set];
    - a Python exception is a value of [exn]; a function that may raise
      returns an [outcome];
    - [REAL] and [BLOB] column values are not modelled. *)

From Stdlib Require Import String Ascii List ZArith Lia Bool Arith.
Import ListNotations.
Open Scope list_scope.
Open Scope string_scope.
Open Scope nat_scope.

Set Warnings "-register-all".

(** ** Python strings *)

Module PyStr.

(** [str.isspace] on one ASCII character: TAB, LF, VT, FF, CR, the four
    separators 0x1c-0x1f and the space. *)
Definition is_space (c : ascii) : bool :=
  let n := nat_of_ascii c in
  ((9 <=? n) && (n <=? 13)) || ((28 <=? n) && (n <=? 31)) || (n =? 32).

Definition upper_char (c : ascii) : ascii :=
  let n := nat_of_ascii c in
  if (97 <=? n) && (n <=? 122) then ascii_of_nat (n - 32) else c.

(** [s.upper()] *)
Fixpoint upper (s : string) : string :=
  match s with
  | EmptyString => EmptyString
  | String c r => String (upper_char c) (upper r)
  end.

(** [s.lstrip()] *)
Fixpoint lstrip (s : string) : string :=
  match s with
  | EmptyString => EmptyString
  | String c r => if is_space c then lstrip r else s
  end.

(** [s.rstrip()]: a character stays unless it is white space and nothing
    but white space follows it. *)
Fixpoint rstrip (s : string) : string :=
  match s with
  | EmptyString => EmptyString
  | String c r =>
      match rstrip r with
      | EmptyString => if is_space c then EmptyString else String c EmptyString
      | r' => String c r'
      end
  end.

(** [s.strip()] *)
Definition strip (s : string) : string := rstrip (lstrip s).

(** The word that starts [s]: the characters up to the first white space. *)
Fixpoint take_word (s : string) : string :=
  match s with
  | EmptyString => EmptyString
  | String c r => if is_space c then EmptyString else String c (take_word r)
  end.

(** What follows the word that starts [s]. *)
Fixpoint drop_word (s : string) : string :=
  match s with
  | EmptyString => EmptyString
  | String c r => if is_space c then s else drop_word r
  end.

(** [s.split()] with no argument: the maximal runs of non-space characters.
    [fuel] bounds the number of characters still to read; [split] gives
    enough. *)
Fixpoint split_fuel (fuel : nat) (s : string) : list string :=
  match fuel with
  | O => []
  | S fuel' =>
      match lstrip s with
      | EmptyString => []
      | String c r =>
          String c (take_word r) :: split_fuel fuel' (drop_word r)
      end
  end.

Definition split (s : string) : list string :=
  split_fuel (S (String.length s)) s.

(** [sep.join(l)] *)
Fixpoint join (sep : string) (l : list string) : string :=
  match l with
  | [] => EmptyString
  | [x] => x
  | x :: r => x ++ sep ++ join sep r
  end.

(** [s.split(sep)] for a one-character separator: the fields between the
    separators, empty ones included. *)
Fixpoint split_on (sep : ascii) (s : string) : list string :=
  match s with
  | EmptyString => [EmptyString]
  | String c r =>
      if Ascii.eqb c sep then EmptyString :: split_on sep r
      else match split_on sep r with
           | [] => [String c EmptyString]
           | w :: ws => String c w :: ws
           end
  end.

(** [s.rfind(".")]: the index of the last dot, if there is one. *)
Fixpoint rfind_dot (s : string) : option nat :=
  match s with
  | EmptyString => None
  | String c r =>
      match rfind_dot r with
      | Some i => Some (S i)
      | None => if Ascii.eqb c "."%char then Some 0 else None
      end
  end.

(** [s[:n]] *)
Fixpoint prefix_n (n : nat) (s : string) : string :=
  match n, s with
  | O, _ => EmptyString
  | _, EmptyString => EmptyString
  | S n', String c r => String c (prefix_n n' r)
  end.

Definition in_list (s : string) (l : list string) : bool :=
  existsb (String.eqb s) l.

(** The decimal digit [d], for [d] below ten. *)
Definition digit_char (d : nat) : ascii := ascii_of_nat (48 + d).

(** [str(n)] for a natural number: its decimal digits, the most
    significant first.  [fuel] bounds the number of digits; [of_nat] gives
    enough. *)
Fixpoint digits_fuel (fuel n : nat) : string :=
  match fuel with
  | O => EmptyString
  | S fuel' =>
      if n <? 10 then String (digit_char n) EmptyString
      else digits_fuel fuel' (n / 10)
           ++ String (digit_char (n mod 10)) EmptyString
  end.

Definition of_nat (n : nat) : string := digits_fuel (S n) n.

(** [str(z)] for an integer. *)
Definition of_Z (z : Z) : string :=
  if (z <? 0)%Z then "-" ++ of_nat (Z.to_nat (- z)) else of_nat (Z.to_nat z).

(** [n] printed in decimal on at least [w] digits, padded with zeros. *)
Fixpoint zeros (n : nat) : string :=
  match n with O => EmptyString | S n' => String "0"%char (zeros n') end.

Definition pad (w : nat) (n : nat) : string :=
  let s := of_nat n in
  zeros (w - String.length s) ++ s.

End PyStr.

(** ** Paths ([pathlib.PurePosixPath]) *)

Module PyPath.

(** A parsed path: [root] is the empty string for a relative path, and
    ["/"] or ["//"] for an absolute one; [parts] are the components, in
    order, with the empty ones and the ["."] ones dropped.  [".."] is kept:
    [pathlib] never collapses it. *)
Record path := mkPath { root : string; parts : list string }.

Definition starts_with_slash (s : string) : bool :=
  match s with
  | String c _ => Ascii.eqb c "/"
  | EmptyString => false
  end.

Definition tail (s : string) : string :=
  match s with
  | String _ r => r
  | EmptyString => EmptyString
  end.

(** POSIX [splitroot]: exactly two leading slashes are a root of their
    own, one or three and more are ["/"]. *)
Definition root_of (s : string) : string :=
  if starts_with_slash s then
    if starts_with_slash (tail s) && negb (starts_with_slash (tail (tail s)))
    then "//" else "/"
  else "".

Definition keep_part (x : string) : bool :=
  negb (String.eqb x "") && negb (String.eqb x ".").

(** [Path(s)] *)
Definition Path (s : string) : path :=
  mkPath (root_of s) (filter keep_part (PyStr.split_on "/" s)).

(** [p / s]: a segment with a root replaces [p], any other is appended. *)
Definition joinpath (p : path) (s : string) : path :=
  if starts_with_slash s then Path s
  else mkPath (root p) (parts p ++ parts (Path s))%list.

(** [str(p)] *)
Definition str (p : path) : string :=
  match root p, parts p with
  | EmptyString, [] => "."
  | r, ps => r ++ PyStr.join "/" ps
  end.

(** [p.name]: the last component, empty when there is none. *)
Definition name (p : path) : string := last (parts p) "".

(** [p.stem]: the name without its last suffix; a name that starts or ends
    with its only dot has no suffix. *)
Definition stem (p : path) : string :=
  let n := name p in
  match PyStr.rfind_dot n with
  | Some i =>
      if (0 <? i) && (i <? String.length n - 1) then PyStr.prefix_n i n
      else n
  | None => n
  end.

(** Where a path leads, with [".."] followed lexically (symbolic links are
    not modelled): the components are pushed on a stack, [".."] pops one,
    and stays at the top of the file system when the stack is empty. *)
Definition walk1 (stack : list string) (c : string) : list string :=
  if String.eqb c ".." then tl stack else c :: stack.

Definition walk (stack : list string) (cs : list string) : list string :=
  fold_left walk1 cs stack.

(** The directory reached from the working directory [cwd] (the components
    of an absolute path): an absolute [p] starts over from the top. *)
Definition location (cwd : list string) (p : path) : list string :=
  rev (if String.eqb (root p) "" then walk (walk [] cwd) (parts p)
       else walk [] (parts p)).

Fixpoint is_prefix (l m : list string) : bool :=
  match l, m with
  | [], _ => true
  | x :: l', y :: m' => String.eqb x y && is_prefix l' m'
  | _ :: _, [] => false
  end.

(** [p] lies in the directory [d] or below it. *)
Definition within (cwd : list string) (d p : path) : bool :=
  is_prefix (location cwd d) (location cwd p).

(** [p] lies strictly below the directory [d]. *)
Definition descendant (cwd : list string) (d p : path) : bool :=
  within cwd d p && (length (location cwd d) <? length (location cwd p)).

End PyPath.

(** ** Python values, dictionaries and exceptions *)

Inductive pyval :=
| PNone
| PBool (b : bool)
| PInt (z : Z)
| PStr (s : string)
| PList (l : list pyval)
| PDict (d : list (string * pyval)).

Definition pydict := list (string * pyval).

(** [d[k]] as a lookup. *)
Fixpoint dict_get (d : pydict) (k : string) : option pyval :=
  match d with
  | [] => None
  | (k', v) :: r => if String.eqb k k' then Some v else dict_get r k
  end.

(** [d[k] = v]: an existing key keeps its place, a new one goes last. *)
Fixpoint dict_set (d : pydict) (k : string) (v : pyval) : pydict :=
  match d with
  | [] => [(k, v)]
  | (k', v') :: r =>
      if String.eqb k k' then (k, v) :: r else (k', v') :: dict_set r k v
  end.

(** A value a column can hold. *)
Inductive sqlval :=
| SNull
| SInt (z : Z)
| SText (s : string).

Definition to_py (v : sqlval) : pyval :=
  match v with
  | SNull => PNone
  | SInt z => PInt z
  | SText s => PStr s
  end.

(** [bool(v)] *)
Definition truthy (v : sqlval) : bool :=
  match v with
  | SNull => false
  | SInt z => negb (Z.eqb z 0)
  | SText s => negb (String.eqb s "")
  end.

(** [f"{v}"] *)
Definition fmt (v : sqlval) : string :=
  match v with
  | SNull => "None"
  | SInt z => PyStr.of_Z z
  | SText s => s
  end.

(** A [sqlite3.Row]: the cells of one result row, each under its column
    name; it is indexed by position and converts to a dictionary. *)
Definition row := list (string * sqlval).

(** The comparison of column names in [Row.__getitem__]: equal up to the
    case of ASCII letters. *)
Definition same_name (a b : string) : bool :=
  String.eqb (PyStr.upper a) (PyStr.upper b).

(** [r[k]] for a column name [k]: the cell of the first column whose name
    is [k] up to case. *)
Definition row_get (r : row) (k : string) : sqlval :=
  match find (fun kv => same_name k (fst kv)) r with
  | Some kv => snd kv
  | None => SNull
  end.

(** [dict(r)]: for each name of [r.keys()] in turn, [d[k] = r[k]]. *)
Definition dict_of_row (r : row) : pydict :=
  fold_left (fun d kv => dict_set d (fst kv) (to_py (row_get r (fst kv)))) r [].

(** A raised exception: [type(e).__name__], [str(e)], and whether its class
    derives from [sqlite3.Error]. *)
Record exn := mkExn {
  exn_type : string;
  exn_msg : string;
  is_sqlite_error : bool
}.

Definition IndexError : exn :=
  mkExn "IndexError" "list index out of range" false.

Definition TypeError : exn :=
  mkExn "TypeError" "'NoneType' object is not subscriptable" false.

Inductive outcome (A : Type) :=
| Ret (a : A)
| Raise (e : exn).
Arguments Ret {A} a.
Arguments Raise {A} e.

(** ** The clock *)

Record datetime := mkDatetime {
  year : nat; month : nat; day : nat;
  hour : nat; minute : nat; second : nat; microsecond : nat
}.

(** [t.strftime("%Y%m%d_%H%M%S")] *)
Definition strftime_backup (t : datetime) : string :=
  PyStr.pad 4 (year t) ++ PyStr.pad 2 (month t) ++ PyStr.pad 2 (day t) ++ "_"
  ++ PyStr.pad 2 (hour t) ++ PyStr.pad 2 (minute t) ++ PyStr.pad 2 (second t).

(** [t.isoformat()] *)
Definition isoformat (t : datetime) : string :=
  PyStr.pad 4 (year t) ++ "-" ++ PyStr.pad 2 (month t) ++ "-"
  ++ PyStr.pad 2 (day t) ++ "T" ++ PyStr.pad 2 (hour t) ++ ":"
  ++ PyStr.pad 2 (minute t) ++ ":" ++ PyStr.pad 2 (second t)
  ++ (if microsecond t =? 0 then "" else "." ++ PyStr.pad 6 (microsecond t)).

(** ** The engine: [sqlite3], the file system and the clock *)

(** One operation of the outside world: it moves the world to a new state
    and returns or raises. *)
Definition op (S A : Type) : Type := S -> S * outcome A.

Record Engine := mkEngine {
  eng_state : Type;
  connection : Type;
  cursor : Type;
  (** [Path.exists] on the path printed as a string *)
  fs_exists : string -> eng_state -> bool;
  (** [datetime.now()] *)
  clock_now : eng_state -> eng_state * datetime;
  (** [sqlite3.connect(path)] *)
  sq_connect : string -> op eng_state connection;
  (** [conn.cursor()] *)
  sq_cursor : connection -> op eng_state cursor;
  (** [cursor.execute(query)] and [cursor.execute(query, params)] *)
  sq_execute : cursor -> string -> option (list pyval) -> op eng_state unit;
  (** [cursor.fetchall()] *)
  sq_fetchall : cursor -> op eng_state (list row);
  (** [cursor.fetchone()] *)
  sq_fetchone : cursor -> op eng_state (option row);
  (** [cursor.rowcount] *)
  sq_rowcount : cursor -> eng_state -> Z;
  (** [conn.commit()], [conn.rollback()], [conn.close()] *)
  sq_commit : connection -> op eng_state unit;
  sq_rollback : connection -> op eng_state unit;
  sq_close : connection -> op eng_state unit;
  (** [source.backup(target)] *)
  sq_backup : connection -> connection -> op eng_state unit
}.

(** The calls the program makes into [sqlite3], as they appear in a trace. *)
Inductive event :=
| EConnect (path : string)
| ECursor
| EExecute (query : string) (params : option (list pyval))
| EFetchall
| EFetchone
| ECommit
| ERollback
| EClose
| EBackup.

(** ** Configuration *)

Record SQLiteServerConfig := mkConfig {
  data_dir : PyPath.path;
  max_results : nat;
  allowed_operations : list string
}.

Definition config : SQLiteServerConfig :=
  mkConfig (PyPath.Path "./data") 1000
    ["SELECT"; "INSERT"; "UPDATE"; "DELETE"; "CREATE"; "DROP"; "ALTER"].

(** ** Request records (the pydantic models) *)

Record QueryParams := mkQueryParams {
  qp_query : string;
  qp_params : option (list pyval);
  qp_database : string
}.

Record SchemaParams := mkSchemaParams {
  sp_database : string;
  sp_table_name : option string
}.

Record BackupParams := mkBackupParams {
  bp_source_db : string;
  bp_backup_path : option string
}.

Record CreateTableParams := mkCreateTableParams {
  ct_database : string;
  ct_table_name : string;
  ct_columns : list (string * string);
  ct_primary_key : option string
}.

(** Truth value of an optional string and of an optional list: [None] and
    the empty value are false. *)
Definition truthy_str (o : option string) : bool :=
  match o with
  | Some s => negb (String.eqb s "")
  | None => false
  end.

Definition truthy_list {A : Type} (o : option (list A)) : bool :=
  match o with
  | Some (_ :: _) => true
  | _ => false
  end.

(** [get_db_path] *)
Definition get_db_path (database : string) : PyPath.path :=
  PyPath.joinpath (data_dir config) database.

(** The leading keyword as both [execute_sql] and [execute_query] compute
    it, [query.strip().upper().split()], before the element [0] is taken. *)
Definition query_tokens (query : string) : list string :=
  PyStr.split (PyStr.upper (PyStr.strip query)).

(** ** The program, over an engine *)

Section Server.

Variable E : Engine.

(** The state the program runs in: the engine's, and the calls made so
    far, oldest first. *)
Record world := mkWorld {
  w_state : eng_state E;
  w_trace : list event
}.

(** A computation: it transforms the world and returns or raises. *)
Definition M (A : Type) : Type := world -> world * outcome A.

Definition ret {A : Type} (a : A) : M A := fun w => (w, Ret a).

Definition raise {A : Type} (e : exn) : M A := fun w => (w, Raise e).

Definition bind {A B : Type} (m : M A) (k : A -> M B) : M B :=
  fun w =>
    match m w with
    | (w', Ret a) => k a w'
    | (w', Raise e) => (w', Raise e)
    end.

(** [try: m except <classes accepted by catches> as e: handler e] *)
Definition try_except {A : Type} (m : M A) (catches : exn -> bool)
    (handler : exn -> M A) : M A :=
  fun w =>
    match m w with
    | (w', Ret a) => (w', Ret a)
    | (w', Raise e) => if catches e then handler e w' else (w', Raise e)
    end.

(** A call into the library: the event is recorded, then the engine runs. *)
Definition call {A : Type} (ev : event) (o : op (eng_state E) A) : M A :=
  fun w =>
    let (s', r) := o (w_state w) in
    (mkWorld s' (w_trace w ++ [ev])%list, r).

Notation "x <- m ;; k" := (bind m (fun x => k))
  (at level 61, m at next level, right associativity).
Notation "m ;;; k" := (bind m (fun _ => k))
  (at level 61, right associativity).

Fixpoint mapM {A B : Type} (f : A -> M B) (l : list A) : M (list B) :=
  match l with
  | [] => ret []
  | x :: r => y <- f x ;; ys <- mapM f r ;; ret (y :: ys)
  end.

(** [for x in l: acc = f acc x] *)
Fixpoint foldM {A B : Type} (f : B -> A -> M B) (l : list A) (acc : B) : M B :=
  match l with
  | [] => ret acc
  | x :: r => acc' <- f acc x ;; foldM f r acc'
  end.

(** [l[0]] on a list of strings *)
Definition first_item (l : list string) : M string :=
  match l with
  | x :: _ => ret x
  | [] => raise IndexError
  end.

(** [r[i]] on a row *)
Definition row_item (r : row) (i : nat) : M sqlval :=
  match nth_error r i with
  | Some kv => ret (snd kv)
  | None => raise IndexError
  end.

(** [r[0]] on the result of [fetchone] *)
Definition optrow_item0 (o : option row) : M sqlval :=
  match o with
  | Some r => row_item r 0
  | None => raise TypeError
  end.

Definition path_exists (p : PyPath.path) : M bool :=
  fun w => (w, Ret (fs_exists E (PyPath.str p) (w_state w))).

Definition now : M datetime :=
  fun w =>
    let (s', t) := clock_now E (w_state w) in
    (mkWorld s' (w_trace w), Ret t).

Definition connect (path : string) : M (connection E) :=
  call (EConnect path) (sq_connect E path).

Definition conn_cursor (c : connection E) : M (cursor E) :=
  call ECursor (sq_cursor E c).

Definition execute (cu : cursor E) (q : string)
    (ps : option (list pyval)) : M unit :=
  call (EExecute q ps) (sq_execute E cu q ps).

Definition fetchall (cu : cursor E) : M (list row) :=
  call EFetchall (sq_fetchall E cu).

Definition fetchone (cu : cursor E) : M (option row) :=
  call EFetchone (sq_fetchone E cu).

Definition rowcount (cu : cursor E) : M Z :=
  fun w => (w, Ret (sq_rowcount E cu (w_state w))).

Definition commit (c : connection E) : M unit :=
  call ECommit (sq_commit E c).

Definition rollback (c : connection E) : M unit :=
  call ERollback (sq_rollback E c).

Definition close (c : connection E) : M unit :=
  call EClose (sq_close E c).

Definition backup (src dst : connection E) : M unit :=
  call EBackup (sq_backup E src dst).

(** [with conn: body].  Leaving the block, a [sqlite3] connection commits
    when the body ended without an exception and rolls back when it raised
    (or when that commit fails); the exception then goes on.  It does not
    close the connection. *)
Definition with_connection {A : Type} (c : connection E) (body : M A) : M A :=
  fun w =>
    match body w with
    | (w1, Ret a) =>
        match commit c w1 with
        | (w2, Ret _) => (w2, Ret a)
        | (w2, Raise e) =>
            match rollback c w2 with
            | (w3, Ret _) => (w3, Raise e)
            | (w3, Raise e') => (w3, Raise e')
            end
        end
    | (w1, Raise e) =>
        match rollback c w1 with
        | (w2, Ret _) => (w2, Raise e)
        | (w2, Raise e') => (w2, Raise e')
        end
    end.

(** The failure dictionary of the [except] clauses. *)
Definition error_response (e : exn) : pydict :=
  [("success", PBool false);
   ("error", PStr (exn_msg e));
   ("error_type", PStr (exn_type e))].

(** The block of [execute_query] under [with ... as conn]. *)
Definition query_block (conn : connection E) (query : string)
    (params : option (list pyval)) : M pydict :=
  cu <- conn_cursor conn ;;
  (if truthy_list params then execute cu query params
   else execute cu query None) ;;;
  query_type <- first_item (query_tokens query) ;;
  if String.eqb query_type "SELECT" then
    rows <- fetchall cu ;;
    let results := map dict_of_row rows in
    ret [("success", PBool true);
         ("data", PList (map PDict (firstn (max_results config) results)));
         ("row_count", PInt (Z.of_nat (length results)));
         ("truncated", PBool (max_results config <? length results))]
  else
    commit conn ;;;
    n <- rowcount cu ;;
    ret [("success", PBool true);
         ("message",
          PStr ("Query executed successfully. Rows affected: "
                ++ PyStr.of_Z n));
         ("rows_affected", PInt n)].

(** [execute_query] *)
Definition execute_query (database query : string)
    (params : option (list pyval)) : M pydict :=
  let db_path := get_db_path database in
  try_except
    (conn <- connect (PyPath.str db_path) ;;
     with_connection conn (query_block conn query params))
    is_sqlite_error
    (fun e => ret (error_response e)).

(** [execute_sql] *)
Definition execute_sql (params : QueryParams) : M pydict :=
  query_type <- first_item (query_tokens (qp_query params)) ;;
  if negb (PyStr.in_list query_type (allowed_operations config)) then
    ret [("success", PBool false);
         ("error", PStr ("Operation " ++ query_type ++ " not allowed"))]
  else
    result <- execute_query (qp_database params) (qp_query params)
                (qp_params params) ;;
    let result := dict_set result "database" (PStr (qp_database params)) in
    t <- now ;;
    ret (dict_set result "timestamp" (PStr (isoformat t))).

(** One column descriptor of [get_schema], from a row of
    [PRAGMA table_info]. *)
Definition column_descriptor (col : row) : M pyval :=
  c1 <- row_item col 1 ;;
  c2 <- row_item col 2 ;;
  c3 <- row_item col 3 ;;
  c4 <- row_item col 4 ;;
  c5 <- row_item col 5 ;;
  ret (PDict [("name", to_py c1);
              ("type", to_py c2);
              ("not_null", PBool (truthy c3));
              ("default_value", to_py c4);
              ("primary_key", PBool (truthy c5))]).

(** One index descriptor of [get_schema], from a row of
    [PRAGMA index_list]. *)
Definition index_descriptor (cu : cursor E) (idx : row) : M pyval :=
  i1 <- row_item idx 1 ;;
  execute cu ("PRAGMA index_info(" ++ fmt i1 ++ ")") None ;;;
  cols <- fetchall cu ;;
  index_columns <- mapM (fun col => row_item col 2) cols ;;
  n <- row_item idx 1 ;;
  u <- row_item idx 2 ;;
  ret (PDict [("name", to_py n);
              ("unique", PBool (truthy u));
              ("columns", PList (map to_py index_columns))]).

(** The body of the loop over the tables in [get_schema]; [tables] is the
    dictionary [schema_info["tables"]] built so far.  The key is the table
    name as [sqlite_master] holds it, a text. *)
Definition table_info (cu : cursor E) (tables : pydict) (table : sqlval)
    : M pydict :=
  execute cu ("PRAGMA table_info(" ++ fmt table ++ ")") None ;;;
  cols <- fetchall cu ;;
  columns <- mapM column_descriptor cols ;;
  execute cu ("PRAGMA index_list(" ++ fmt table ++ ")") None ;;;
  idxs <- fetchall cu ;;
  indexes <- mapM (index_descriptor cu) idxs ;;
  execute cu ("SELECT COUNT(*) FROM " ++ fmt table) None ;;;
  r <- fetchone cu ;;
  row_count <- optrow_item0 r ;;
  ret (dict_set tables (fmt table)
         (PDict [("columns", PList columns);
                 ("indexes", PList indexes);
                 ("row_count", to_py row_count)])).

Definition table_query_named : string :=
  "SELECT name FROM sqlite_master WHERE type='table' AND name=?".

Definition table_query_all : string :=
  "SELECT name FROM sqlite_master WHERE type='table' AND name != 'sqlite_sequence'".

(** The enumeration of the tables in [get_schema]:
    [tables = [row[0] for row in cursor.fetchall()]] after the query. *)
Definition enumerate_tables (cu : cursor E) (table_name : option string)
    : M (list sqlval) :=
  (if truthy_str table_name then
     execute cu table_query_named
       (Some [PStr (match table_name with Some n => n | None => "" end)])
   else execute cu table_query_all None) ;;;
  rows <- fetchall cu ;;
  mapM (fun r => row_item r 0) rows.

(** [get_schema] *)
Definition get_schema (params : SchemaParams) : M pydict :=
  let db_path := get_db_path (sp_database params) in
  ex <- path_exists db_path ;;
  if negb ex then
    ret [("success", PBool false);
         ("error",
          PStr ("Database " ++ sp_database params ++ " does not exist"))]
  else
    try_except
      (conn <- connect (PyPath.str db_path) ;;
       with_connection conn
         (cu <- conn_cursor conn ;;
          tables <- enumerate_tables cu (sp_table_name params) ;;
          infos <- foldM (table_info cu) tables [] ;;
          ret [("success", PBool true);
               ("database", PStr (sp_database params));
               ("tables", PDict infos)]))
      is_sqlite_error
      (fun e => ret (error_response e)).

(** The column definitions of [create_table]. *)
Definition column_defs (columns : list (string * string))
    (primary_key : option string) : list string :=
  map (fun c =>
         let col_def := fst c ++ " " ++ snd c in
         if truthy_str primary_key
            && String.eqb (fst c)
                 (match primary_key with Some k => k | None => "" end)
         then col_def ++ " PRIMARY KEY" else col_def)
      columns.

Definition create_query (params : CreateTableParams) : string :=
  "CREATE TABLE IF NOT EXISTS " ++ ct_table_name params ++ " ("
  ++ PyStr.join ", " (column_defs (ct_columns params) (ct_primary_key params))
  ++ ")".

(** [create_table] *)
Definition create_table (params : CreateTableParams) : M pydict :=
  execute_query (ct_database params) (create_query params) None.

(** The backup file name made when none is given. *)
Definition backup_name (source_path : PyPath.path) (t : datetime) : string :=
  PyPath.stem source_path ++ "_backup_" ++ strftime_backup t ++ ".db".

(** The destination of [backup_database]. *)
Definition backup_destination (params : BackupParams)
    (source_path : PyPath.path) : M PyPath.path :=
  if negb (truthy_str (bp_backup_path params)) then
    t <- now ;;
    ret (PyPath.joinpath (data_dir config) (backup_name source_path t))
  else
    ret (PyPath.Path
           (match bp_backup_path params with Some s => s | None => "" end)).

(** [backup_database] *)
Definition backup_database (params : BackupParams) : M pydict :=
  let source_path := get_db_path (bp_source_db params) in
  ex <- path_exists source_path ;;
  if negb ex then
    ret [("success", PBool false);
         ("error",
          PStr ("Source database " ++ bp_source_db params
                ++ " does not exist"))]
  else
    backup_path <- backup_destination params source_path ;;
    try_except
      (source_conn <- connect (PyPath.str source_path) ;;
       backup_conn <- connect (PyPath.str backup_path) ;;
       backup source_conn backup_conn ;;;
       close source_conn ;;;
       close backup_conn ;;;
       t <- now ;;
       ret [("success", PBool true);
            ("message", PStr "Database backed up successfully");
            ("backup_path", PStr (PyPath.str backup_path));
            ("timestamp", PStr (isoformat t))])
      (fun _ => true)
      (fun e => ret (error_response e)).

(** [optimize_database] *)
Definition optimize_database (database : string) : M pydict :=
  vacuum_result <- execute_query database "VACUUM" None ;;
  let results :=
    [PDict [("operation", PStr "VACUUM"); ("result", PDict vacuum_result)]] in
  analyze_result <- execute_query database "ANALYZE" None ;;
  let results :=
    (results ++
     [PDict [("operation", PStr "ANALYZE"); ("result", PDict analyze_result)]])%list in
  t <- now ;;
  ret [("success", PBool true);
       ("message", PStr "Database optimization completed");
       ("operations", PList results);
       ("timestamp", PStr (isoformat t))].

(** Running a computation from an engine state, with an empty trace. *)
Definition run {A : Type} (m : M A) (s : eng_state E) : world * outcome A :=
  m (mkWorld s []).

End Server.

Arguments run {E A} m s.
Arguments mkWorld {E} w_state w_trace.
Arguments w_state {E} w.
Arguments w_trace {E} w.

(** ** Notions the properties are stated with *)

(** The leading keyword of a statement in the words of the specification:
    its first white-space-delimited token, upper-cased.  [first_token_spec]
    shows that the program's [query_tokens] starts with it. *)
Definition leading_keyword (query : string) : option string :=
  option_map PyStr.upper (hd_error (PyStr.split query)).

(** The first element of [s.split()]. *)
Definition first_word (s : string) : option string :=
  match PyStr.lstrip s with
  | EmptyString => None
  | String c r => Some (String c (PyStr.take_word r))
  end.

(** The text is empty or white space only. *)
Fixpoint all_space (s : string) : bool :=
  match s with
  | EmptyString => true
  | String c r => PyStr.is_space c && all_space r
  end.

Definition is_digit (c : ascii) : bool :=
  (48 <=? nat_of_ascii c) && (nat_of_ascii c <=? 57).

Fixpoint all_digits (s : string) : bool :=
  match s with
  | EmptyString => true
  | String c r => is_digit c && all_digits r
  end.

Fixpoint has_slash (s : string) : bool :=
  match s with
  | EmptyString => false
  | String c r => Ascii.eqb c "/" || has_slash r
  end.


(** A reading of the clock as [datetime] allows it. *)
Definition valid_datetime (t : datetime) : Prop :=
  1 <= year t < 100 * 100 /\ 1 <= month t <= 12 /\ 1 <= day t <= 31
  /\ hour t < 24 /\ minute t < 60 /\ second t < 60.

(** Every exception the engine raises derives from [sqlite3.Error]. *)
Definition raises_sqlite {S A : Type} (o : op S A) : Prop :=
  forall s s' e, o s = (s', Raise e) -> is_sqlite_error e = true.

Definition sqlite_errors_only (E : Engine) : Prop :=
  (forall p, raises_sqlite (sq_connect E p))
  /\ (forall c, raises_sqlite (sq_cursor E c))
  /\ (forall cu q ps, raises_sqlite (sq_execute E cu q ps))
  /\ (forall cu, raises_sqlite (sq_fetchall E cu))
  /\ (forall c, raises_sqlite (sq_commit E c))
  /\ (forall c, raises_sqlite (sq_rollback E c)).

(** The bind values as [execute_query] hands them to [cursor.execute]: they
    go along only when there are some. *)
Definition bound (ps : option (list pyval)) : option (list pyval) :=
  if truthy_list ps then ps else None.


(** The calls [m] makes, from any world, all satisfy [Q]. *)
Definition emits (E : Engine) {A : Type} (Q : event -> Prop) (m : M E A)
    : Prop :=
  forall w, exists tr,
    w_trace (fst (m w)) = (w_trace w ++ tr)%list /\ Forall Q tr.

(** Every exception [m] raises derives from [sqlite3.Error]. *)
Definition safe (E : Engine) {A : Type} (m : M E A) : Prop :=
  forall w w' e, m w = (w', Raise e) -> is_sqlite_error e = true.

(** An event of [execute_query] on the statement [q]: no statement other
    than [q] is executed, and nothing is closed. *)
Definition query_event (q : string) (ev : event) : Prop :=
  match ev with
  | EExecute q' _ => q' = q
  | EClose | EBackup | EFetchone => False
  | _ => True
  end.


(** ** The catalogue queries of [get_schema]

    What SQLite answers to the two queries on [sqlite_master]: one row,
    with the single column [name], for each entry the [WHERE] clause
    keeps, in the order of the catalogue. *)

Record master_entry := mkEntry { m_type : string; m_name : string }.

(** [WHERE type='table' AND name=?] bound to [n] *)
Definition where_named (n : string) (e : master_entry) : bool :=
  String.eqb (m_type e) "table" && String.eqb (m_name e) n.

(** [WHERE type='table' AND name != 'sqlite_sequence'] *)
Definition where_all (e : master_entry) : bool :=
  String.eqb (m_type e) "table"
  && negb (String.eqb (m_name e) "sqlite_sequence").

Definition select_name (keep : master_entry -> bool)
    (master : list master_entry) : list row :=
  map (fun e => [("name", SText (m_name e))]) (filter keep master).

(** ** A small engine to run the program on

    One database with a few tables, shared by every path.  It answers the
    statements [get_schema] sends and [SELECT * FROM t]; any other statement
    runs and returns no row.  The statements listed in [d_locked] fail with
    [OperationalError]. *)

Module Demo.

Record table := mkTable {
  t_name : string;
  t_columns : list (string * string);
  t_rows : list row
}.

Record state := mkState {
  d_files : list string;
  d_tables : list table;
  d_result : list row;
  d_locked : list string;
  d_clock : datetime
}.

Definition master (ts : list table) : list master_entry :=
  map (fun t => mkEntry "table" (t_name t)) ts.

(** The rows of [PRAGMA table_info]: cid, name, type, notnull, dflt_value,
    pk. *)
Fixpoint column_rows (cid : Z) (cols : list (string * string)) : list row :=
  match cols with
  | [] => []
  | (n, ty) :: r =>
      [("cid", SInt cid); ("name", SText n); ("type", SText ty);
       ("notnull", SInt 0); ("dflt_value", SNull); ("pk", SInt 0)]
      :: column_rows (cid + 1) r
  end.

Fixpoint about_table (q : string) (ts : list table) : option (list row) :=
  match ts with
  | [] => None
  | t :: r =>
      if String.eqb q ("PRAGMA table_info(" ++ t_name t ++ ")") then
        Some (column_rows 0 (t_columns t))
      else if String.eqb q ("PRAGMA index_list(" ++ t_name t ++ ")") then
        Some []
      else if String.eqb q ("SELECT COUNT(*) FROM " ++ t_name t) then
        Some [[("COUNT(*)", SInt (Z.of_nat (length (t_rows t))))]]
      else if String.eqb q ("SELECT * FROM " ++ t_name t) then
        Some (t_rows t)
      else about_table q r
  end.

Definition answer (q : string) (ps : option (list pyval))
    (ts : list table) : list row :=
  if String.eqb q table_query_named then
    match ps with
    | Some [PStr n] => select_name (where_named n) (master ts)
    | _ => []
    end
  else if String.eqb q table_query_all then
    select_name where_all (master ts)
  else
    match about_table q ts with
    | Some rows => rows
    | None => []
    end.

Definition locked : exn :=
  mkExn "OperationalError" "database is locked" true.

Definition with_result (s : state) (rows : list row) : state :=
  mkState (d_files s) (d_tables s) rows (d_locked s) (d_clock s).

Definition do_connect (path : string) : op state string :=
  fun s =>
    (mkState (path :: d_files s) (d_tables s) (d_result s) (d_locked s)
       (d_clock s),
     Ret path).

Definition do_execute (_ : unit) (q : string) (ps : option (list pyval))
    : op state unit :=
  fun s =>
    if PyStr.in_list q (d_locked s) then (s, Raise locked)
    else (with_result s (answer q ps (d_tables s)), Ret tt).

Definition do_fetchall (_ : unit) : op state (list row) :=
  fun s => (with_result s [], Ret (d_result s)).

Definition do_fetchone (_ : unit) : op state (option row) :=
  fun s => (with_result s (tl (d_result s)), Ret (hd_error (d_result s))).

Definition quiet (s : state) : state * outcome unit := (s, Ret tt).

Definition engine : Engine :=
  mkEngine state string unit
    (fun path s => PyStr.in_list path (d_files s))
    (fun s => (s, d_clock s))
    do_connect
    (fun _ s => (s, Ret tt))
    do_execute
    do_fetchall
    do_fetchone
    (fun _ _ => (-1)%Z)
    (fun _ => quiet)
    (fun _ => quiet)
    (fun _ => quiet)
    (fun _ _ => quiet).

Definition noon : datetime := mkDatetime 2024 3 9 12 0 5 0.

Definition users : table :=
  mkTable "users" [("id", "INTEGER"); ("name", "TEXT")]
    [[("id", SInt 1); ("name", SText "ada")];
     [("id", SInt 2); ("name", SText "bob")]].

(** The file [data/main.db] exists and holds the table [users]. *)
Definition s0 : state := mkState ["data/main.db"] [users] [] [] noon.

(** The same, with [VACUUM] refused. *)
Definition s_locked : state :=
  mkState ["data/main.db"] [users] [] ["VACUUM"] noon.

End Demo.

(** ** Listing the databases *)

Section Listing.

Variable E : Engine.

(** The directory operations [list_databases] uses, on the state of the
    engine: [Path.glob] gives the names of the entries of a directory that
    match a pattern, [Path.stat] the size and the modification time of a
    file, [datetime.fromtimestamp] the local date of such a time. *)
Record Directory := mkDirectory {
  mtime : Type;
  fs_glob : string -> string -> op (eng_state E) (list string);
  fs_stat : string -> op (eng_state E) (Z * mtime);
  fromtimestamp : mtime -> outcome datetime
}.

Variable D : Directory.

Notation "x <- m ;; k" := (bind E m (fun x => k))
  (at level 61, m at next level, right associativity).

(** An operation of the outside world that is no call into [sqlite3]: the
    trace is left as it is. *)
Definition perform {A : Type} (o : op (eng_state E) A) : M E A :=
  fun w =>
    let (s', r) := o (w_state w) in
    (mkWorld s' (w_trace w), r).

(** The path [glob] yields for the entry [name] of the directory [p]. *)
Definition child (p : PyPath.path) (name : string) : PyPath.path :=
  PyPath.mkPath (PyPath.root p) (PyPath.parts p ++ [name])%list.

(** The body of the loop of [list_databases]. *)
Definition database_entry (name : string) : M E pyval :=
  let db_file := child (data_dir config) name in
  st <- perform (fs_stat D (PyPath.str db_file)) ;;
  t <- (fun w => (w, fromtimestamp D (snd st))) ;;
  ret E (PDict [("name", PStr (PyPath.name db_file));
                ("size_bytes", PInt (fst st));
                ("modified", PStr (isoformat t));
                ("path", PStr (PyPath.str db_file))]).

(** [list_databases] *)
Definition list_databases : M E pydict :=
  try_except E
    (names <- perform (fs_glob D (PyPath.str (data_dir config)) "*.db") ;;
     databases <- mapM E database_entry names ;;
     ret E [("success", PBool true);
            ("databases", PList databases);
            ("count", PInt (Z.of_nat (length databases)))])
    (fun _ => true)
    (fun e => ret E [("success", PBool false); ("error", PStr (exn_msg e))]).

End Listing.

(** ** More to run the program on *)

Module Faulty.

(** The engine of [Demo] with every [commit] and every [backup] refused. *)
Definition refused : exn :=
  mkExn "OperationalError" "disk I/O error" true.

Definition refuse {A : Type} (s : Demo.state) : Demo.state * outcome A :=
  (s, Raise refused).

Definition engine : Engine :=
  mkEngine Demo.state string unit
    (fun path s => PyStr.in_list path (Demo.d_files s))
    (fun s => (s, Demo.d_clock s))
    Demo.do_connect
    (fun _ s => (s, Ret tt))
    Demo.do_execute
    Demo.do_fetchall
    Demo.do_fetchone
    (fun _ _ => (-1)%Z)
    (fun _ => refuse)
    (fun _ => Demo.quiet)
    (fun _ => Demo.quiet)
    (fun _ _ => refuse).

End Faulty.

Module DemoDir.

(** What is left of [s] after the prefix [pre], if [s] starts with it. *)
Fixpoint strip_prefix (pre s : string) : option string :=
  match pre, s with
  | EmptyString, _ => Some s
  | String a pre', String b s' =>
      if Ascii.eqb a b then strip_prefix pre' s' else None
  | String _ _, EmptyString => None
  end.

Fixpoint ends_with_db (s : string) : bool :=
  match s with
  | EmptyString => false
  | String c r => String.eqb s ".db" || ends_with_db r
  end.

(** The entries of the directory [dir] among the files of the state that
    end in [.db]. *)
Definition entries (dir : string) (files : list string) : list string :=
  flat_map
    (fun f =>
       match strip_prefix (dir ++ "/") f with
       | Some n => if ends_with_db n then [n] else []
       | None => []
       end)
    files.

(** Every file holds 4096 bytes and was modified at [Demo.noon]; a file
    named in [broken] cannot be examined. *)
Definition directory (broken : list string) : Directory Demo.engine :=
  mkDirectory Demo.engine unit
    (fun dir _ s => (s, Ret (entries dir (Demo.d_files s))))
    (fun path s =>
       if PyStr.in_list path broken
       then (s, Raise (mkExn "FileNotFoundError"
                         "[Errno 2] No such file or directory" false))
       else (s, Ret (4096%Z, tt)))
    (fun _ => Ret Demo.noon).

Definition s2 : Demo.state :=
  Demo.mkState ["data/main.db"; "data/notes.txt"; "data/old.db"]
    [Demo.users] [] [] Demo.noon.

End DemoDir.

(** ** More notions the properties are stated with *)


(** The cell [i] of a row, [NULL] when the row is shorter. *)
Definition cell (r : row) (i : nat) : sqlval := snd (nth i r ("", SNull)).

(** The column descriptor [get_schema] makes of a row of
    [PRAGMA table_info]. *)
Definition descriptor (col : row) : pyval :=
  PDict [("name", to_py (cell col 1));
         ("type", to_py (cell col 2));
         ("not_null", PBool (truthy (cell col 3)));
         ("default_value", to_py (cell col 4));
         ("primary_key", PBool (truthy (cell col 5)))].

(** The three dictionaries [execute_query] returns. *)
Definition read_result (r : pydict) : Prop :=
  exists (data : list pyval) (n : Z) (b : bool),
    r = [("success", PBool true); ("data", PList data);
         ("row_count", PInt n); ("truncated", PBool b)].

Definition write_result (r : pydict) : Prop :=
  exists n : Z,
    r = [("success", PBool true);
         ("message",
          PStr ("Query executed successfully. Rows affected: "
                ++ PyStr.of_Z n));
         ("rows_affected", PInt n)].

Definition failure_result (r : pydict) : Prop :=
  exists e : exn, is_sqlite_error e = true /\ r = error_response e.

(** A database entry of the listing for the file [n]. *)
Definition entry_of (n : string) (en : pyval) : Prop :=
  exists (size : Z) (t : datetime),
    en = PDict [("name", PStr n);
                ("size_bytes", PInt size);
                ("modified", PStr (isoformat t));
                ("path", PStr ("data/" ++ n))].

(** [int(s)] for a string of decimal digits. *)
Definition digit_value (c : ascii) : nat := nat_of_ascii c - 48.

Fixpoint read_nat_acc (acc : nat) (s : string) : nat :=
  match s with
  | EmptyString => acc
  | String c r => read_nat_acc (10 * acc + digit_value c) r
  end.

Definition read_nat (s : string) : nat := read_nat_acc 0 s.

(** Two readings of the clock in the same second. *)
Definition same_second (t t' : datetime) : Prop :=
  year t = year t' /\ month t = month t' /\ day t = day t'
  /\ hour t = hour t' /\ minute t = minute t' /\ second t = second t'.

(** Every dictionary [m] returns satisfies [P]. *)
Definition returns (E : Engine) {A : Type} (P : A -> Prop) (m : M E A)
    : Prop :=
  forall w w' a, m w = (w', Ret a) -> P a.

(** An event of [get_schema]: the statements are SELECT and PRAGMA
    statements, and nothing is closed. *)
Definition schema_event (ev : event) : Prop :=
  match ev with
  | EExecute q _ =>
      leading_keyword q = Some "SELECT" \/ leading_keyword q = Some "PRAGMA"
  | EClose | EBackup => False
  | _ => True
  end.

(** * Properties *)

(** ** Strings and the leading keyword *)

Example split_words :
  PyStr.split "  select  *  from t " = ["select"; "*"; "from"; "t"]
  /\ PyStr.split "   " = []
  /\ PyStr.strip "  a b  " = "a b"
  /\ PyStr.upper "Select_1z{`" = "SELECT_1Z{`".
Proof. repeat split; reflexivity. Qed.

Example decimal_printing :
  PyStr.of_Z (-1) = "-1" /\ PyStr.of_Z 0 = "0" /\ PyStr.of_Z 120 = "120"
  /\ PyStr.pad 2 7 = "07" /\ PyStr.pad 4 2024 = "2024"
  /\ strftime_backup Demo.noon = "20240309_120005"
  /\ isoformat Demo.noon = "2024-03-09T12:00:05".
Proof. repeat split; reflexivity. Qed.

Example path_parsing :
  get_db_path "a//b/./c" = PyPath.mkPath "" ["data"; "a"; "b"; "c"]
  /\ PyPath.str (get_db_path "") = "data"
  /\ PyPath.Path "//x" = PyPath.mkPath "//" ["x"]
  /\ PyPath.Path "///x" = PyPath.mkPath "/" ["x"]
  /\ PyPath.stem (PyPath.Path "a/b.tar.gz") = "b.tar"
  /\ PyPath.stem (PyPath.Path ".bashrc") = ".bashrc"
  /\ PyPath.stem (PyPath.Path "foo.") = "foo."
  /\ PyPath.stem (PyPath.Path "..") = "..".
Proof. repeat split; reflexivity. Qed.

Example create_query_text :
  create_query
    (mkCreateTableParams "main.db" "t" [("id", "INTEGER"); ("v", "TEXT")]
       (Some "id"))
  = "CREATE TABLE IF NOT EXISTS t (id INTEGER PRIMARY KEY, v TEXT)".
Proof. reflexivity. Qed.


Lemma is_space_upper_char (c : ascii) :
  PyStr.is_space (PyStr.upper_char c) = PyStr.is_space c.
Proof. destruct c as [[] [] [] [] [] [] [] []]; reflexivity. Qed.

Lemma lstrip_upper (s : string) :
  PyStr.lstrip (PyStr.upper s) = PyStr.upper (PyStr.lstrip s).
Proof.
  induction s as [|c r IH]; simpl; [reflexivity|].
  rewrite is_space_upper_char.
  destruct (PyStr.is_space c); [exact IH | reflexivity].
Qed.

Lemma take_word_upper (s : string) :
  PyStr.take_word (PyStr.upper s) = PyStr.upper (PyStr.take_word s).
Proof.
  induction s as [|c r IH]; simpl; [reflexivity|].
  rewrite is_space_upper_char.
  destruct (PyStr.is_space c); simpl; [reflexivity | now rewrite IH].
Qed.

Lemma hd_split (s : string) : hd_error (PyStr.split s) = first_word s.
Proof.
  unfold PyStr.split, first_word; simpl.
  destruct (PyStr.lstrip s); reflexivity.
Qed.

Lemma lstrip_head (s : string) (c : ascii) (r : string) :
  PyStr.lstrip s = String c r -> PyStr.is_space c = false.
Proof.
  induction s as [|d s' IH]; simpl; [discriminate|].
  destruct (PyStr.is_space d) eqn:Hd; [exact IH|].
  intros H; injection H as <- _; exact Hd.
Qed.

Lemma rstrip_cons (c : ascii) (r : string) :
  PyStr.is_space c = false ->
  PyStr.rstrip (String c r) = String c (PyStr.rstrip r).
Proof.
  intros Hc; simpl; rewrite Hc.
  destruct (PyStr.rstrip r); reflexivity.
Qed.

Lemma take_word_rstrip (s : string) :
  PyStr.take_word (PyStr.rstrip s) = PyStr.take_word s.
Proof.
  induction s as [|c r IH]; [reflexivity|].
  destruct (PyStr.is_space c) eqn:Hc.
  - simpl; rewrite Hc.
    destruct (PyStr.rstrip r); simpl; [reflexivity | now rewrite Hc].
  - rewrite (rstrip_cons c r Hc); simpl; rewrite Hc, IH; reflexivity.
Qed.

Lemma first_word_strip (s : string) :
  first_word (PyStr.strip s) = first_word s.
Proof.
  unfold first_word, PyStr.strip.
  destruct (PyStr.lstrip s) as [|c r] eqn:Hs; [reflexivity|].
  pose proof (lstrip_head s c r Hs) as Hc.
  rewrite (rstrip_cons c r Hc); simpl; rewrite Hc, take_word_rstrip.
  reflexivity.
Qed.

Lemma first_word_upper (s : string) :
  first_word (PyStr.upper s) = option_map PyStr.upper (first_word s).
Proof.
  unfold first_word; rewrite lstrip_upper.
  destruct (PyStr.lstrip s) as [|c r]; simpl; [reflexivity|].
  now rewrite take_word_upper.
Qed.

(** The token the program tests is the leading keyword of the
    specification: upper-casing before or after the split is the same. *)
Lemma first_token_spec (q : string) :
  hd_error (query_tokens q) = leading_keyword q.
Proof.
  unfold query_tokens, leading_keyword.
  rewrite !hd_split, first_word_upper, first_word_strip; reflexivity.
Qed.

Lemma query_tokens_keyword (q k : string) :
  leading_keyword q = Some k -> exists rest, query_tokens q = k :: rest.
Proof.
  rewrite <- first_token_spec.
  destruct (query_tokens q) as [|x rest]; simpl; [discriminate|].
  intros H; injection H as ->; now exists rest.
Qed.

Lemma lstrip_all_space (s : string) :
  all_space s = true -> PyStr.lstrip s = EmptyString.
Proof.
  induction s as [|c r IH]; simpl; [reflexivity|].
  destruct (PyStr.is_space c); simpl; [exact IH | discriminate].
Qed.

Lemma query_tokens_blank (q : string) :
  all_space q = true -> query_tokens q = [].
Proof.
  intros H; unfold query_tokens, PyStr.strip.
  rewrite (lstrip_all_space q H); reflexivity.
Qed.

(** ** The statement gateway *)

(** C10. When the query text is empty or white space only, [execute_sql]
    raises [IndexError] while it takes the leading token: the caller gets
    an exception, not a response, and no call reaches the engine. *)
Theorem execute_sql_blank_raises (E : Engine) (p : QueryParams)
    (s : eng_state E) :
  all_space (qp_query p) = true ->
  run (execute_sql E p) s = (mkWorld s [], Raise IndexError).
Proof.
  intros H; unfold run, execute_sql, bind.
  rewrite (query_tokens_blank _ H); reflexivity.
Qed.

Lemma execute_sql_blank_raises_witness :
  all_space "  " = true
  /\ run (execute_sql Demo.engine (mkQueryParams "  " None "main.db")) Demo.s0
     = (@mkWorld Demo.engine Demo.s0 [], Raise IndexError).
Proof.
  split; [reflexivity|].
  apply (execute_sql_blank_raises Demo.engine
           (mkQueryParams "  " None "main.db") Demo.s0).
  reflexivity.
Defined.




(** ** What a computation calls *)

Section Emits.

Variable E : Engine.
Variable Q : event -> Prop.

Lemma emits_ret {A : Type} (a : A) : emits E Q (ret E a).
Proof. intros w; exists []; simpl; now rewrite app_nil_r. Qed.

Lemma emits_raise {A : Type} (e : exn) : emits E Q (@raise E A e).
Proof. intros w; exists []; simpl; now rewrite app_nil_r. Qed.

Lemma emits_bind {A B : Type} (m : M E A) (k : A -> M E B) :
  emits E Q m -> (forall a, emits E Q (k a)) -> emits E Q (bind E m k).
Proof.
  intros Hm Hk w; unfold bind.
  destruct (Hm w) as [tr1 [H1 F1]].
  destruct (m w) as [w1 [a|e]]; simpl in H1.
  - destruct (Hk a w1) as [tr2 [H2 F2]].
    exists (tr1 ++ tr2)%list; split.
    + now rewrite H2, H1, app_assoc.
    + now apply Forall_app.
  - exists tr1; simpl; now split.
Qed.

Lemma emits_try {A : Type} (m : M E A) (catches : exn -> bool)
    (h : exn -> M E A) :
  emits E Q m -> (forall e, emits E Q (h e)) ->
  emits E Q (try_except E m catches h).
Proof.
  intros Hm Hh w; unfold try_except.
  destruct (Hm w) as [tr1 [H1 F1]].
  destruct (m w) as [w1 [a|e]]; simpl in H1.
  - exists tr1; simpl; now split.
  - destruct (catches e).
    + destruct (Hh e w1) as [tr2 [H2 F2]].
      exists (tr1 ++ tr2)%list; split.
      * now rewrite H2, H1, app_assoc.
      * now apply Forall_app.
    + exists tr1; simpl; now split.
Qed.

Lemma emits_call {A : Type} (ev : event) (o : op (eng_state E) A) :
  Q ev -> emits E Q (call E ev o).
Proof.
  intros Hev w; unfold call.
  destruct (o (w_state w)) as [s' r]; simpl.
  exists [ev]; split; [reflexivity | now constructor].
Qed.

Lemma emits_pure {A : Type} (f : world E -> A) :
  emits E Q (fun w => (w, Ret (f w))).
Proof. intros w; exists []; simpl; now rewrite app_nil_r. Qed.

Lemma emits_now : emits E Q (now E).
Proof.
  intros w; unfold now.
  destruct (clock_now E (w_state w)) as [s' t]; simpl.
  exists []; now rewrite app_nil_r.
Qed.

Lemma emits_with {A : Type} (c : connection E) (body : M E A) :
  Q ECommit -> Q ERollback -> emits E Q body ->
  emits E Q (with_connection E c body).
Proof.
  intros Hc Hr Hb w; unfold with_connection.
  destruct (Hb w) as [tr1 [H1 F1]].
  pose proof (emits_call ECommit (sq_commit E c) Hc) as Ec.
  pose proof (emits_call ERollback (sq_rollback E c) Hr) as Er.
  fold (commit E c) in Ec; fold (rollback E c) in Er.
  destruct (body w) as [w1 [a|e]]; simpl in H1.
  - destruct (Ec w1) as [tr2 [H2 F2]].
    destruct (commit E c w1) as [w2 [u|e2]]; simpl in H2.
    + exists (tr1 ++ tr2)%list; simpl; split;
        [now rewrite H2, H1, app_assoc | now apply Forall_app].
    + destruct (Er w2) as [tr3 [H3 F3]].
      exists (tr1 ++ tr2 ++ tr3)%list.
      assert (F : Forall Q (tr1 ++ tr2 ++ tr3)%list)
        by (apply Forall_app; split;
            [assumption | apply Forall_app; split; assumption]).
      destruct (rollback E c w2) as [w3 [u|e3]]; simpl in H3 |- *;
        (split; [now rewrite H3, H2, H1, !app_assoc | exact F]).
  - destruct (Er w1) as [tr2 [H2 F2]].
    exists (tr1 ++ tr2)%list.
    assert (F : Forall Q (tr1 ++ tr2)%list) by now apply Forall_app.
    destruct (rollback E c w1) as [w2 [u|e2]]; simpl in H2 |- *;
      (split; [now rewrite H2, H1, app_assoc | exact F]).
Qed.

Lemma emits_first_item (l : list string) : emits E Q (first_item E l).
Proof. destruct l; [apply emits_raise | apply emits_ret]. Qed.

End Emits.

Lemma emits_weaken (E : Engine) {A : Type} (Q R : event -> Prop) (m : M E A) :
  (forall ev, Q ev -> R ev) -> emits E Q m -> emits E R m.
Proof.
  intros HQR Hm w; destruct (Hm w) as [tr [H F]].
  exists tr; split; [exact H | exact (Forall_impl R HQR F)].
Qed.

Lemma query_block_emits (E : Engine) (c : connection E) (q : string)
    (ps : option (list pyval)) :
  emits E (query_event q) (query_block E c q ps).
Proof.
  unfold query_block.
  apply emits_bind; [apply emits_call; exact I|]; intros cu.
  apply emits_bind;
    [destruct (truthy_list ps); apply emits_call; reflexivity|]; intros _.
  apply emits_bind; [apply emits_first_item|]; intros k.
  destruct (String.eqb k "SELECT").
  - apply emits_bind; [apply emits_call; exact I|]; intros rows.
    apply emits_ret.
  - apply emits_bind; [apply emits_call; exact I|]; intros _.
    apply emits_bind; [apply emits_pure|]; intros n.
    apply emits_ret.
Qed.

(** What [execute_query] calls: the statement it was given and no other,
    and never [close]. *)
Lemma execute_query_emits (E : Engine) (db q : string)
    (ps : option (list pyval)) :
  emits E (query_event q) (execute_query E db q ps).
Proof.
  unfold execute_query.
  apply emits_try; [|intros e; apply emits_ret].
  apply emits_bind; [apply emits_call; exact I|]; intros c.
  apply emits_with; try exact I.
  apply query_block_emits.
Qed.

(** C7. [execute_query] opens a connection and never closes it: whatever
    the engine does, the trace of a call starts with [connect] and holds no
    [close].  Leaving the [with] block commits or rolls back, no more; the
    connection stays open when the call returns. *)
Theorem execute_query_never_closes (E : Engine) (db q : string)
    (ps : option (list pyval)) (s : eng_state E) :
  exists tr,
    w_trace (fst (run (execute_query E db q ps) s))
    = EConnect (PyPath.str (get_db_path db)) :: tr
    /\ ~ In EClose tr.
Proof.
  unfold run, execute_query, try_except, bind.
  unfold connect at 1, call at 1; cbn [w_state w_trace app].
  destruct (sq_connect E (PyPath.str (get_db_path db)) s) as [s1 [c|e]].
  - pose proof (emits_with E (query_event q) c
                  (query_block E c q ps) I I (query_block_emits E c q ps))
      as Hw.
    specialize (Hw (mkWorld s1 [EConnect (PyPath.str (get_db_path db))])).
    destruct Hw as [tr [Htr F]]; cbn [w_trace app] in Htr.
    destruct (with_connection E c (query_block E c q ps)
                (mkWorld s1 [EConnect (PyPath.str (get_db_path db))]))
      as [w1 [r|e]]; cbn [fst] in Htr.
    + exists tr; cbn [fst]; split; [exact Htr|].
      intros Hin; rewrite Forall_forall in F; exact (F _ Hin).
    + assert (Hno : ~ In EClose tr)
        by (intros Hin; rewrite Forall_forall in F; exact (F _ Hin)).
      destruct (is_sqlite_error e); exists tr; cbn [fst ret]; split;
        assumption.
  - destruct (is_sqlite_error e); exists []; cbn [fst ret w_trace];
      split; auto.
Qed.

Lemma emits_bind_ret (E : Engine) {A B : Type} (Q : event -> Prop) (a : A)
    (k : A -> M E B) :
  emits E Q (k a) -> emits E Q (bind E (ret E a) k).
Proof. intros H w; exact (H w). Qed.

Lemma emits_bind_raise (E : Engine) {A B : Type} (Q : event -> Prop)
    (e : exn) (k : A -> M E B) :
  emits E Q (bind E (raise E e) k).
Proof. intros w; exists []; cbn; now rewrite app_nil_r. Qed.

Lemma emits_run (E : Engine) {A : Type} (Q : event -> Prop) (m : M E A)
    (s : eng_state E) :
  emits E Q m -> Forall Q (w_trace (fst (run m s))).
Proof.
  intros H; destruct (H (mkWorld s [])) as [tr [Htr F]].
  unfold run; now rewrite Htr.
Qed.


Lemma create_query_keyword (p : CreateTableParams) :
  leading_keyword (create_query p) = Some "CREATE".
Proof.
  unfold leading_keyword, create_query; rewrite hd_split; reflexivity.
Qed.




(** ** Running [execute_query] step by step *)

Section Steps.

Variable E : Engine.

Lemma bind_call_ret {A B : Type} (ev : event) (o : op (eng_state E) A)
    (k : A -> M E B) (s s' : eng_state E) (tr : list event) (a : A) :
  o s = (s', Ret a) ->
  bind E (call E ev o) k (mkWorld s tr) = k a (mkWorld s' (tr ++ [ev])%list).
Proof. intros H; unfold bind, call; cbn [w_state w_trace]; now rewrite H. Qed.

Lemma bind_call_raise {A B : Type} (ev : event) (o : op (eng_state E) A)
    (k : A -> M E B) (s s' : eng_state E) (tr : list event) (e : exn) :
  o s = (s', Raise e) ->
  bind E (call E ev o) k (mkWorld s tr)
  = (mkWorld s' (tr ++ [ev])%list, Raise e).
Proof. intros H; unfold bind, call; cbn [w_state w_trace]; now rewrite H. Qed.

Lemma with_connection_ret {A : Type} (c : connection E) (body : M E A)
    (w : world E) (s1 s2 : eng_state E) (tr1 : list event) (a : A) :
  body w = (mkWorld s1 tr1, Ret a) ->
  sq_commit E c s1 = (s2, Ret tt) ->
  with_connection E c body w = (mkWorld s2 (tr1 ++ [ECommit])%list, Ret a).
Proof.
  intros Hb Hc; unfold with_connection, commit, call.
  rewrite Hb; cbn [w_state w_trace]; now rewrite Hc.
Qed.

Lemma with_connection_raise {A : Type} (c : connection E) (body : M E A)
    (w : world E) (s1 s2 : eng_state E) (tr1 : list event) (e : exn) :
  body w = (mkWorld s1 tr1, Raise e) ->
  sq_rollback E c s1 = (s2, Ret tt) ->
  with_connection E c body w
  = (mkWorld s2 (tr1 ++ [ERollback])%list, Raise e).
Proof.
  intros Hb Hc; unfold with_connection, rollback, call.
  rewrite Hb; cbn [w_state w_trace]; now rewrite Hc.
Qed.

Lemma execute_bound (cu : cursor E) (q : string) (ps : option (list pyval)) :
  (if truthy_list ps then execute E cu q ps else execute E cu q None)
  = execute E cu q (bound ps).
Proof. unfold bound; destruct (truthy_list ps); reflexivity. Qed.

Lemma query_block_select (c : connection E) (cu : cursor E) (q : string)
    (ps : option (list pyval)) (rest : list string) (rows : list row)
    (tr : list event) (s1 s2 s3 s4 : eng_state E) :
  query_tokens q = "SELECT" :: rest ->
  sq_cursor E c s1 = (s2, Ret cu) ->
  sq_execute E cu q (bound ps) s2 = (s3, Ret tt) ->
  sq_fetchall E cu s3 = (s4, Ret rows) ->
  query_block E c q ps (mkWorld s1 tr)
  = (mkWorld s4 (tr ++ [ECursor; EExecute q (bound ps); EFetchall])%list,
     Ret [("success", PBool true);
          ("data",
           PList (map PDict (firstn (max_results config)
                               (map dict_of_row rows))));
          ("row_count", PInt (Z.of_nat (length (map dict_of_row rows))));
          ("truncated",
           PBool (max_results config <? length (map dict_of_row rows)))]).
Proof.
  intros Hq Hcu Hex Hfa; unfold query_block, conn_cursor.
  rewrite (bind_call_ret _ _ _ _ _ _ _ Hcu), execute_bound.
  unfold execute, fetchall.
  rewrite (bind_call_ret _ _ _ _ _ _ _ Hex), Hq.
  unfold bind at 1; cbn [first_item ret String.eqb Ascii.eqb Bool.eqb].
  rewrite (bind_call_ret _ _ _ _ _ _ _ Hfa).
  cbn [ret]; rewrite <- !app_assoc; reflexivity.
Qed.


End Steps.

(** No exception of [sqlite3] leaves [execute_query]: what it lets through
    is of another class. *)
Lemma execute_query_lets_no_sqlite_error (E : Engine) (db q : string)
    (ps : option (list pyval)) (w w' : world E) (e : exn) :
  execute_query E db q ps w = (w', Raise e) -> is_sqlite_error e = false.
Proof.
  unfold execute_query, try_except.
  destruct (bind E _ _ w) as [w1 [r|e1]]; [discriminate|].
  destruct (is_sqlite_error e1) eqn:He1; cbn [ret]; [discriminate|].
  intros H; injection H as _ <-; exact He1.
Qed.



(** C2. A statement whose leading keyword is SELECT, run through
    [execute_sql] on an engine that executes it and hands back [rows]:
    the response reports [row_count] as the number of rows fetched,
    whatever the cap; [data] holds the first [min (row_count, 1000)] of
    them; [truncated] is true exactly when [row_count] exceeds 1000. *)
Theorem execute_sql_select_row_count (E : Engine) (p : QueryParams)
    (s s1 s2 s3 s4 s5 : eng_state E) (c : connection E) (cu : cursor E)
    (rows : list row) :
  leading_keyword (qp_query p) = Some "SELECT" ->
  sq_connect E (PyPath.str (get_db_path (qp_database p))) s = (s1, Ret c) ->
  sq_cursor E c s1 = (s2, Ret cu) ->
  sq_execute E cu (qp_query p) (bound (qp_params p)) s2 = (s3, Ret tt) ->
  sq_fetchall E cu s3 = (s4, Ret rows) ->
  sq_commit E c s4 = (s5, Ret tt) ->
  exists (r : pydict) (data : list pyval) (truncated : bool),
    snd (run (execute_sql E p) s) = Ret r
    /\ dict_get r "success" = Some (PBool true)
    /\ dict_get r "row_count" = Some (PInt (Z.of_nat (length rows)))
    /\ dict_get r "data" = Some (PList data)
    /\ data = map PDict (firstn 1000 (map dict_of_row rows))
    /\ length data = Nat.min (length rows) 1000
    /\ dict_get r "truncated" = Some (PBool truncated)
    /\ (truncated = true <-> 1000 < length rows).
Proof.
  intros Hk Hco Hcu Hex Hfa Hcm.
  destruct (query_tokens_keyword _ _ Hk) as [rest Hq].
  pose proof (query_block_select E c cu (qp_query p) (qp_params p) rest rows
                [EConnect (PyPath.str (get_db_path (qp_database p)))]
                s1 s2 s3 s4 Hq Hcu Hex Hfa) as Hblock.
  pose proof (with_connection_ret E c _ _ _ _ _ _ Hblock Hcm) as Hwith.
  assert (Hrun : execute_query E (qp_database p) (qp_query p) (qp_params p)
                   (mkWorld s [])
                 = (mkWorld s5
                      ([EConnect (PyPath.str (get_db_path (qp_database p)))]
                       ++ [ECursor;
                           EExecute (qp_query p) (bound (qp_params p));
                           EFetchall] ++ [ECommit])%list,
                    Ret [("success", PBool true);
                         ("data",
                          PList (map PDict
                                   (firstn (max_results config)
                                      (map dict_of_row rows))));
                         ("row_count",
                          PInt (Z.of_nat (length (map dict_of_row rows))));
                         ("truncated",
                          PBool (max_results config
                                 <? length (map dict_of_row rows)))])).
  { unfold execute_query, try_except, connect.
    rewrite (bind_call_ret E _ _ _ _ _ _ _ Hco).
    cbn [app]; rewrite Hwith; rewrite <- app_assoc; reflexivity. }
  exists (dict_set
            (dict_set
               [("success", PBool true);
                ("data",
                 PList (map PDict
                          (firstn (max_results config)
                             (map dict_of_row rows))));
                ("row_count", PInt (Z.of_nat (length (map dict_of_row rows))));
                ("truncated",
                 PBool (max_results config <? length (map dict_of_row rows)))]
               "database" (PStr (qp_database p)))
            "timestamp" (PStr (isoformat (snd (clock_now E s5))))),
    (map PDict (firstn 1000 (map dict_of_row rows))),
    (1000 <? length rows).
  split; [|split; [|split; [|split; [|split; [|split; [|split]]]]]].
  - unfold run, execute_sql; rewrite Hq.
    unfold bind at 1; cbn [first_item ret].
    replace (negb (PyStr.in_list "SELECT" (allowed_operations config)))
      with false by reflexivity.
    unfold bind at 1; rewrite Hrun.
    unfold bind, now; cbn [w_state].
    destruct (clock_now E s5) as [s6 t]; reflexivity.
  - reflexivity.
  - cbn [dict_set dict_get String.eqb Ascii.eqb Bool.eqb].
    now rewrite length_map.
  - reflexivity.
  - reflexivity.
  - rewrite length_map, length_firstn, length_map; apply Nat.min_comm.
  - cbn [dict_set dict_get String.eqb Ascii.eqb Bool.eqb].
    now rewrite length_map.
  - apply Nat.ltb_lt.
Qed.

Lemma execute_sql_select_row_count_witness :
  exists (r : pydict) (data : list pyval) (truncated : bool),
    snd (run (execute_sql Demo.engine
                (mkQueryParams "SELECT * FROM users" None "main.db")) Demo.s0)
    = Ret r
    /\ dict_get r "success" = Some (PBool true)
    /\ dict_get r "row_count" = Some (PInt 2)
    /\ dict_get r "data" = Some (PList data)
    /\ data = map PDict (firstn 1000 (map dict_of_row (Demo.t_rows Demo.users)))
    /\ length data = Nat.min 2 1000
    /\ dict_get r "truncated" = Some (PBool truncated)
    /\ (truncated = true <-> 1000 < 2).
Proof.
  eapply (execute_sql_select_row_count Demo.engine
            (mkQueryParams "SELECT * FROM users" None "main.db") Demo.s0)
    with (rows := Demo.t_rows Demo.users); reflexivity.
Defined.

(** ** What a computation may raise *)

Section Safe.

Variable E : Engine.

Lemma safe_ret {A : Type} (a : A) : safe E (ret E a).
Proof. intros w w' e H; discriminate. Qed.

Lemma safe_pure {A : Type} (f : world E -> A) :
  safe E (fun w => (w, Ret (f w))).
Proof. intros w w' e H; discriminate. Qed.

Lemma safe_call {A : Type} (ev : event) (o : op (eng_state E) A) :
  raises_sqlite o -> safe E (call E ev o).
Proof.
  intros Ho w w' e; unfold call.
  destruct (o (w_state w)) as [s' r] eqn:Hr.
  intros H; injection H as _ ->; exact (Ho _ _ _ Hr).
Qed.

Lemma safe_bind {A B : Type} (m : M E A) (k : A -> M E B) :
  safe E m -> (forall a, safe E (k a)) -> safe E (bind E m k).
Proof.
  intros Hm Hk w w' e; unfold bind.
  destruct (m w) as [w1 [a|e1]] eqn:Hr.
  - apply Hk.
  - intros H; injection H as _ <-; exact (Hm _ _ _ Hr).
Qed.

Lemma safe_with {A : Type} (c : connection E) (body : M E A) :
  raises_sqlite (sq_commit E c) -> raises_sqlite (sq_rollback E c) ->
  safe E body -> safe E (with_connection E c body).
Proof.
  intros Hc Hr Hb w w' e; unfold with_connection.
  pose proof (safe_call ECommit _ Hc) as Sc.
  pose proof (safe_call ERollback _ Hr) as Sr.
  fold (commit E c) in Sc; fold (rollback E c) in Sr.
  destruct (body w) as [w1 [a|e1]] eqn:Hbody.
  - destruct (commit E c w1) as [w2 [u|e2]] eqn:Hcm; [discriminate|].
    destruct (rollback E c w2) as [w3 [u|e3]] eqn:Hrb;
      intros H; injection H as _ <-.
    + exact (Sc _ _ _ Hcm).
    + exact (Sr _ _ _ Hrb).
  - destruct (rollback E c w1) as [w2 [u|e2]] eqn:Hrb;
      intros H; injection H as _ <-.
    + exact (Hb _ _ _ Hbody).
    + exact (Sr _ _ _ Hrb).
Qed.

Lemma query_block_safe (c : connection E) (q : string)
    (ps : option (list pyval)) :
  sqlite_errors_only E -> query_tokens q <> [] ->
  safe E (query_block E c q ps).
Proof.
  intros (Hco & Hcu & Hex & Hfa & Hcm & Hrb) Hq; unfold query_block.
  apply safe_bind; [apply safe_call, Hcu|]; intros cu.
  apply safe_bind;
    [destruct (truthy_list ps); apply safe_call, Hex|]; intros _.
  destruct (query_tokens q) as [|k rest]; [contradiction|].
  apply safe_bind; [apply safe_ret|]; intros k'.
  destruct (String.eqb k' "SELECT").
  - apply safe_bind; [apply safe_call, Hfa | intros rows; apply safe_ret].
  - apply safe_bind; [apply safe_call, Hcm|]; intros _.
    apply safe_bind; [apply safe_pure | intros n; apply safe_ret].
Qed.

(** On an engine that raises nothing but [sqlite3.Error], [execute_query]
    returns a dictionary for every statement that has a token. *)
Lemma execute_query_returns (db q : string) (ps : option (list pyval))
    (w : world E) :
  sqlite_errors_only E -> query_tokens q <> [] ->
  exists w' r, execute_query E db q ps w = (w', Ret r).
Proof.
  intros HE Hq.
  destruct (execute_query E db q ps w) as [w' [r|e]] eqn:Hrun;
    [now exists w', r|].
  pose proof (execute_query_lets_no_sqlite_error E db q ps w w' e Hrun) as Hno.
  revert Hrun; unfold execute_query, try_except.
  destruct (bind E _ _ w) as [w1 [r|e1]] eqn:Hbody; [discriminate|].
  assert (He1 : is_sqlite_error e1 = true).
  { revert Hbody; apply safe_bind.
    - apply safe_call; apply HE.
    - intros c; apply safe_with; try apply HE.
      now apply query_block_safe. }
  rewrite He1; discriminate.
Qed.

End Safe.

(** C4, as the code has it.  On an engine that raises nothing but
    [sqlite3.Error], [optimize_database] runs VACUUM through
    [execute_query], then ANALYZE from the world VACUUM left, and returns
    both outcomes in that order under [operations]; its own [success] is
    the constant true, whatever the two outcomes are. *)
Theorem optimize_database_always_reports_success (E : Engine) (db : string)
    (s : eng_state E) :
  sqlite_errors_only E ->
  exists (w1 w2 : world E) (vac ana : pydict),
    execute_query E db "VACUUM" None (mkWorld s []) = (w1, Ret vac)
    /\ execute_query E db "ANALYZE" None w1 = (w2, Ret ana)
    /\ run (optimize_database E db) s
       = (mkWorld (fst (clock_now E (w_state w2))) (w_trace w2),
          Ret [("success", PBool true);
               ("message", PStr "Database optimization completed");
               ("operations",
                PList [PDict [("operation", PStr "VACUUM");
                              ("result", PDict vac)];
                       PDict [("operation", PStr "ANALYZE");
                              ("result", PDict ana)]]);
               ("timestamp",
                PStr (isoformat (snd (clock_now E (w_state w2)))))]).
Proof.
  intros HE.
  destruct (execute_query_returns E db "VACUUM" None (mkWorld s []) HE)
    as [w1 [vac Hv]]; [discriminate|].
  destruct (execute_query_returns E db "ANALYZE" None w1 HE)
    as [w2 [ana Ha]]; [discriminate|].
  exists w1, w2, vac, ana; split; [exact Hv|]; split; [exact Ha|].
  unfold run, optimize_database, bind; rewrite Hv, Ha.
  unfold now; destruct (clock_now E (w_state w2)) as [s3 t]; reflexivity.
Qed.

(** C4, as stated, fails: with VACUUM refused by the engine, the outcome
    of VACUUM has [success] false and the overall [success] is true. *)
Lemma optimize_database_success_despite_failure :
  exists (r vac ana : pydict),
    snd (run (optimize_database Demo.engine "main.db") Demo.s_locked) = Ret r
    /\ dict_get r "operations"
       = Some (PList [PDict [("operation", PStr "VACUUM");
                             ("result", PDict vac)];
                      PDict [("operation", PStr "ANALYZE");
                             ("result", PDict ana)]])
    /\ dict_get vac "success" = Some (PBool false)
    /\ dict_get r "success" = Some (PBool true).
Proof.
  eexists; eexists; eexists.
  split; [vm_compute; reflexivity|].
  split; [vm_compute; reflexivity|].
  split; reflexivity.
Qed.

Lemma demo_sqlite_errors_only : sqlite_errors_only Demo.engine.
Proof.
  repeat split; intros; intros s s' e H; cbn in H;
    try discriminate.
  unfold Demo.do_execute in H.
  destruct (PyStr.in_list q (Demo.d_locked s)); [|discriminate].
  injection H as _ <-; reflexivity.
Defined.

Lemma optimize_database_always_reports_success_witness :
  sqlite_errors_only Demo.engine
  /\ exists (w1 w2 : world Demo.engine) (vac ana : pydict),
       execute_query Demo.engine "main.db" "VACUUM" None
         (@mkWorld Demo.engine Demo.s_locked []) = (w1, Ret vac)
       /\ execute_query Demo.engine "main.db" "ANALYZE" None w1 = (w2, Ret ana)
       /\ run (optimize_database Demo.engine "main.db") Demo.s_locked
          = (@mkWorld Demo.engine
               (fst (clock_now Demo.engine (w_state w2))) (w_trace w2),
             Ret [("success", PBool true);
                  ("message", PStr "Database optimization completed");
                  ("operations",
                   PList [PDict [("operation", PStr "VACUUM");
                                 ("result", PDict vac)];
                          PDict [("operation", PStr "ANALYZE");
                                 ("result", PDict ana)]]);
                  ("timestamp",
                   PStr (isoformat
                           (snd (clock_now Demo.engine (w_state w2)))))]).
Proof.
  split; [exact demo_sqlite_errors_only|].
  exact (optimize_database_always_reports_success Demo.engine "main.db"
           Demo.s_locked demo_sqlite_errors_only).
Defined.

(** ** The path resolver *)

Lemma walk_app (stack xs ys : list string) :
  PyPath.walk stack (xs ++ ys)%list = PyPath.walk (PyPath.walk stack xs) ys.
Proof. unfold PyPath.walk; apply fold_left_app. Qed.

Lemma walk_plain (cs stack : list string) :
  (forall c, In c cs -> c <> "..") ->
  PyPath.walk stack cs = (rev cs ++ stack)%list.
Proof.
  revert stack; induction cs as [|c cs IH]; intros stack H; [reflexivity|].
  cbn [PyPath.walk fold_left]; unfold PyPath.walk1 at 2.
  destruct (String.eqb_spec c "..") as [->|_].
  - exfalso; apply (H ".."); [now left | reflexivity].
  - fold (PyPath.walk (c :: stack) cs).
    rewrite IH by (intros d Hd; apply H; now right).
    cbn [rev]; now rewrite <- app_assoc.
Qed.

Lemma is_prefix_app (l m : list string) : PyPath.is_prefix l (l ++ m)%list = true.
Proof.
  induction l as [|x l IH]; [reflexivity|].
  cbn; now rewrite String.eqb_refl, IH.
Qed.

Lemma get_db_path_relative (db : string) :
  PyPath.starts_with_slash db = false ->
  get_db_path db
  = PyPath.mkPath "" ("data" :: PyPath.parts (PyPath.Path db)).
Proof.
  intros H; unfold get_db_path, PyPath.joinpath; rewrite H; reflexivity.
Qed.

Lemma location_root (cwd : list string) :
  PyPath.location cwd (data_dir config)
  = (rev (PyPath.walk [] cwd) ++ ["data"])%list.
Proof. reflexivity. Qed.

Lemma location_relative (cwd : list string) (db : string) :
  PyPath.starts_with_slash db = false ->
  (forall c, In c (PyPath.parts (PyPath.Path db)) -> c <> "..") ->
  PyPath.location cwd (get_db_path db)
  = ((rev (PyPath.walk [] cwd) ++ ["data"])
     ++ PyPath.parts (PyPath.Path db))%list.
Proof.
  intros Hrel Hplain; rewrite (get_db_path_relative db Hrel).
  unfold PyPath.location; cbn [PyPath.root PyPath.parts String.eqb].
  change ("data" :: PyPath.parts (PyPath.Path db))
    with (["data"] ++ PyPath.parts (PyPath.Path db))%list.
  rewrite walk_app, (walk_plain (PyPath.parts (PyPath.Path db)) _ Hplain).
  rewrite rev_app_distr, rev_involutive.
  cbn [PyPath.walk fold_left PyPath.walk1 String.eqb Ascii.eqb Bool.eqb rev].
  reflexivity.
Qed.

(** C1, as the code has it.  [get_db_path] joins the name to the sandbox
    root as it is.  For a name that does not start with a slash and has no
    [".."] component the result is the root or lies below it, strictly
    below as soon as the name has a component; this holds from any working
    directory.  Symbolic links are outside the model. *)
Theorem get_db_path_within_root (cwd : list string) (db : string) :
  PyPath.starts_with_slash db = false ->
  (forall c, In c (PyPath.parts (PyPath.Path db)) -> c <> "..") ->
  PyPath.within cwd (data_dir config) (get_db_path db) = true
  /\ (PyPath.parts (PyPath.Path db) <> [] ->
      PyPath.descendant cwd (data_dir config) (get_db_path db) = true).
Proof.
  intros Hrel Hplain.
  assert (Hin : PyPath.within cwd (data_dir config) (get_db_path db) = true).
  { unfold PyPath.within.
    rewrite (location_relative cwd db Hrel Hplain), location_root.
    apply is_prefix_app. }
  split; [exact Hin|].
  intros Hne; unfold PyPath.descendant; rewrite Hin; cbn [andb].
  rewrite (location_relative cwd db Hrel Hplain), location_root.
  apply Nat.ltb_lt; rewrite (length_app (_ ++ _)%list).
  destruct (PyPath.parts (PyPath.Path db)); [contradiction|]; cbn; lia.
Qed.

Lemma get_db_path_within_root_witness :
  PyPath.within ["srv"] (data_dir config) (get_db_path "main.db") = true
  /\ (PyPath.parts (PyPath.Path "main.db") <> [] ->
      PyPath.descendant ["srv"] (data_dir config) (get_db_path "main.db")
      = true).
Proof.
  apply (get_db_path_within_root ["srv"] "main.db"); [reflexivity|].
  intros c [<-|[]]; discriminate.
Defined.

(** C1, as stated, fails: a name with absolute-path syntax replaces the
    root, and a name that climbs with [".."] leaves it. *)
Lemma get_db_path_escapes :
  get_db_path "/etc/passwd" = PyPath.mkPath "/" ["etc"; "passwd"]
  /\ PyPath.within ["srv"] (data_dir config) (get_db_path "/etc/passwd")
     = false
  /\ PyPath.str (get_db_path "../main.db") = "data/../main.db"
  /\ PyPath.within ["srv"] (data_dir config) (get_db_path "../main.db")
     = false.
Proof. repeat split; reflexivity. Qed.

(** ** The backup destination *)

Lemma length_append (a b : string) :
  String.length (a ++ b) = String.length a + String.length b.
Proof. induction a as [|c a IH]; cbn; [reflexivity | now rewrite IH]. Qed.

Lemma append_assoc (a b c : string) : (a ++ b) ++ c = a ++ b ++ c.
Proof. induction a as [|x a IH]; cbn; [reflexivity | now rewrite IH]. Qed.


Lemma all_digits_append (a b : string) :
  all_digits (a ++ b) = all_digits a && all_digits b.
Proof.
  induction a as [|c a IH]; cbn; [reflexivity|].
  now rewrite IH, andb_assoc.
Qed.




Lemma split_on_plain (s : string) :
  has_slash s = false -> PyStr.split_on "/" s = [s].
Proof.
  induction s as [|a s IH]; cbn; [reflexivity|].
  intros H; apply orb_false_elim in H as [Ha Hs].
  now rewrite Ha, (IH Hs).
Qed.






Lemma digit_char_is_digit (d : nat) :
  d < 10 -> is_digit (PyStr.digit_char d) = true.
Proof.
  intros H; do 10 (destruct d as [|d]; [reflexivity|]); lia.
Qed.

Lemma digits_fuel_all_digits (fuel n : nat) :
  all_digits (PyStr.digits_fuel fuel n) = true.
Proof.
  revert n; induction fuel as [|fuel IH]; intros n; [reflexivity|].
  cbn [PyStr.digits_fuel]; destruct (Nat.ltb_spec n 10) as [Hn|Hn].
  - cbn [all_digits]; now rewrite (digit_char_is_digit n Hn).
  - rewrite all_digits_append, IH; cbn [all_digits andb].
    rewrite digit_char_is_digit; [reflexivity|].
    apply Nat.mod_upper_bound; discriminate.
Qed.

Lemma digits_fuel_length (fuel n k : nat) :
  0 < k -> n < 10 ^ k -> String.length (PyStr.digits_fuel fuel n) <= k.
Proof.
  revert n k; induction fuel as [|fuel IH]; intros n k Hk Hn;
    cbn [PyStr.digits_fuel String.length]; [lia|].
  destruct (Nat.ltb_spec n 10) as [Hlt|Hge]; [cbn [String.length]; lia|].
  rewrite length_append; cbn [String.length].
  destruct k as [|[|k]]; [lia | change (10 ^ 1) with 10 in Hn; lia |].
  assert (Hdiv : n / 10 < 10 ^ S k).
  { apply Nat.Div0.div_lt_upper_bound.
    rewrite (Nat.pow_succ_r' 10 (S k)) in Hn; exact Hn. }
  specialize (IH (n / 10) (S k) ltac:(lia) Hdiv); lia.
Qed.

Lemma zeros_length (n : nat) : String.length (PyStr.zeros n) = n.
Proof. induction n as [|n IH]; cbn; [reflexivity | now rewrite IH]. Qed.

Lemma zeros_all_digits (n : nat) : all_digits (PyStr.zeros n) = true.
Proof. induction n as [|n IH]; cbn; [reflexivity | exact IH]. Qed.

(** A number below [10 ^ w] is padded to exactly [w] digits. *)
Lemma pad_digits (w k : nat) :
  0 < w -> k < 10 ^ w ->
  String.length (PyStr.pad w k) = w /\ all_digits (PyStr.pad w k) = true.
Proof.
  intros Hw Hk; unfold PyStr.pad, PyStr.of_nat.
  pose proof (digits_fuel_length (S k) k w Hw Hk) as Hl.
  split.
  - rewrite length_append, zeros_length; lia.
  - now rewrite all_digits_append, zeros_all_digits, digits_fuel_all_digits.
Qed.

Lemma pad2_digits (k : nat) :
  k < 100 ->
  String.length (PyStr.pad 2 k) = 2 /\ all_digits (PyStr.pad 2 k) = true.
Proof. intros Hk; apply pad_digits; [lia | exact Hk]. Qed.

Lemma pad4_digits (k : nat) :
  k < 100 * 100 ->
  String.length (PyStr.pad 4 k) = 4 /\ all_digits (PyStr.pad 4 k) = true.
Proof.
  intros Hk; apply pad_digits; [lia|].
  replace (10 ^ 4) with (100 * 100) by reflexivity; exact Hk.
Qed.


Lemma length_differs (a b : string) :
  String.length a <> String.length b -> String.eqb a b = false.
Proof. intros H; apply String.eqb_neq; intros ->; now apply H. Qed.

Lemma Path_single (s : string) :
  has_slash s = false -> 2 <= String.length s ->
  PyPath.Path s = PyPath.mkPath "" [s].
Proof.
  intros Hs Hl; unfold PyPath.Path.
  rewrite (split_on_plain s Hs); cbn [filter]; unfold PyPath.keep_part.
  rewrite (length_differs s "") by (cbn; lia).
  rewrite (length_differs s ".") by (cbn; lia); cbn [negb andb].
  destruct s as [|c r]; [reflexivity|].
  cbn in Hs; apply orb_false_elim in Hs as [Hc _].
  unfold PyPath.root_of, PyPath.starts_with_slash at 1; now rewrite Hc.
Qed.







(** ** The schema inspector *)

Section Schema.

Variable E : Engine.



End Schema.





(** * Further properties *)

(** ** Writes through [execute_query] *)

Section Writes.

Variable E : Engine.

Lemma first_item_other (k : string) (rest : list string) (A : Type)
    (sel other : M E A) (w : world E) :
  k <> "SELECT" ->
  bind E (first_item E (k :: rest))
    (fun t => if String.eqb t "SELECT" then sel else other) w
  = other w.
Proof.
  intros Hk; unfold bind; cbn [first_item ret].
  now rewrite (proj2 (String.eqb_neq k "SELECT") Hk).
Qed.

Lemma query_block_write (c : connection E) (cu : cursor E) (q k : string)
    (ps : option (list pyval)) (rest : list string)
    (tr : list event) (s1 s2 s3 s4 : eng_state E) :
  query_tokens q = k :: rest -> k <> "SELECT" ->
  sq_cursor E c s1 = (s2, Ret cu) ->
  sq_execute E cu q (bound ps) s2 = (s3, Ret tt) ->
  sq_commit E c s3 = (s4, Ret tt) ->
  query_block E c q ps (mkWorld s1 tr)
  = (mkWorld s4 (tr ++ [ECursor; EExecute q (bound ps); ECommit])%list,
     Ret [("success", PBool true);
          ("message",
           PStr ("Query executed successfully. Rows affected: "
                 ++ PyStr.of_Z (sq_rowcount E cu s4)));
          ("rows_affected", PInt (sq_rowcount E cu s4))]).
Proof.
  intros Hq Hk Hcu Hex Hcm; unfold query_block, conn_cursor.
  rewrite (bind_call_ret E _ _ _ _ _ _ _ Hcu), execute_bound.
  unfold execute.
  rewrite (bind_call_ret E _ _ _ _ _ _ _ Hex), Hq.
  rewrite (first_item_other k rest _ _ _ _ Hk); unfold commit.
  rewrite (bind_call_ret E _ _ _ _ _ _ _ Hcm).
  unfold bind, rowcount; cbn [w_state ret].
  rewrite <- !app_assoc; reflexivity.
Qed.

Lemma query_block_commit_raises (c : connection E) (cu : cursor E)
    (q k : string) (ps : option (list pyval)) (rest : list string)
    (e : exn) (tr : list event) (s1 s2 s3 s4 : eng_state E) :
  query_tokens q = k :: rest -> k <> "SELECT" ->
  sq_cursor E c s1 = (s2, Ret cu) ->
  sq_execute E cu q (bound ps) s2 = (s3, Ret tt) ->
  sq_commit E c s3 = (s4, Raise e) ->
  query_block E c q ps (mkWorld s1 tr)
  = (mkWorld s4 (tr ++ [ECursor; EExecute q (bound ps); ECommit])%list,
     Raise e).
Proof.
  intros Hq Hk Hcu Hex Hcm; unfold query_block, conn_cursor.
  rewrite (bind_call_ret E _ _ _ _ _ _ _ Hcu), execute_bound.
  unfold execute.
  rewrite (bind_call_ret E _ _ _ _ _ _ _ Hex), Hq.
  rewrite (first_item_other k rest _ _ _ _ Hk); unfold commit.
  rewrite (bind_call_raise E _ _ _ _ _ _ _ Hcm).
  rewrite <- !app_assoc; reflexivity.
Qed.

Lemma query_block_blank (c : connection E) (cu : cursor E) (q : string)
    (ps : option (list pyval)) (tr : list event) (s1 s2 s3 : eng_state E) :
  all_space q = true ->
  sq_cursor E c s1 = (s2, Ret cu) ->
  sq_execute E cu q (bound ps) s2 = (s3, Ret tt) ->
  query_block E c q ps (mkWorld s1 tr)
  = (mkWorld s3 (tr ++ [ECursor; EExecute q (bound ps)])%list,
     Raise IndexError).
Proof.
  intros Hq Hcu Hex; unfold query_block, conn_cursor.
  rewrite (bind_call_ret E _ _ _ _ _ _ _ Hcu), execute_bound.
  unfold execute.
  rewrite (bind_call_ret E _ _ _ _ _ _ _ Hex), (query_tokens_blank q Hq).
  unfold bind; cbn [first_item raise].
  rewrite <- !app_assoc; reflexivity.
Qed.

End Writes.

(** X1. A statement whose leading keyword is not SELECT, run by
    [execute_query] on an engine that executes it: the change is committed
    by an explicit [commit] before the block is left (which commits once
    more), and the response reports [cursor.rowcount], read after that
    commit, under [rows_affected] and in the message. *)
Theorem execute_query_write_commits (E : Engine) (db q k : string)
    (ps : option (list pyval)) (s s1 s2 s3 s4 s5 : eng_state E)
    (c : connection E) (cu : cursor E) :
  leading_keyword q = Some k -> k <> "SELECT" ->
  sq_connect E (PyPath.str (get_db_path db)) s = (s1, Ret c) ->
  sq_cursor E c s1 = (s2, Ret cu) ->
  sq_execute E cu q (bound ps) s2 = (s3, Ret tt) ->
  sq_commit E c s3 = (s4, Ret tt) ->
  sq_commit E c s4 = (s5, Ret tt) ->
  run (execute_query E db q ps) s
  = (mkWorld s5 [EConnect (PyPath.str (get_db_path db)); ECursor;
                 EExecute q (bound ps); ECommit; ECommit],
     Ret [("success", PBool true);
          ("message",
           PStr ("Query executed successfully. Rows affected: "
                 ++ PyStr.of_Z (sq_rowcount E cu s4)));
          ("rows_affected", PInt (sq_rowcount E cu s4))]).
Proof.
  intros Hk Hne Hco Hcu Hex Hc1 Hc2.
  destruct (query_tokens_keyword _ _ Hk) as [rest Hq].
  unfold run, execute_query, try_except, connect.
  rewrite (bind_call_ret E _ _ _ _ _ _ _ Hco).
  rewrite (with_connection_ret E c _ _ _ _ _ _
             (query_block_write E c cu q k ps rest _ _ _ _ _
                Hq Hne Hcu Hex Hc1) Hc2).
  reflexivity.
Qed.

Lemma execute_query_write_commits_witness :
  run (execute_query Demo.engine "main.db" "INSERT INTO users VALUES (3)" None)
    Demo.s0
  = (@mkWorld Demo.engine
       (Demo.mkState ["data/main.db"; "data/main.db"] [Demo.users] [] []
          Demo.noon)
       [EConnect "data/main.db"; ECursor;
        EExecute "INSERT INTO users VALUES (3)" None; ECommit; ECommit],
     Ret [("success", PBool true);
          ("message", PStr "Query executed successfully. Rows affected: -1");
          ("rows_affected", PInt (-1))]).
Proof.
  eapply (execute_query_write_commits Demo.engine "main.db"
            "INSERT INTO users VALUES (3)" "INSERT" None Demo.s0)
    with (c := "data/main.db") (cu := tt);
    try reflexivity.
  discriminate.
Defined.

(** X2. When the explicit [commit] of a write fails with an engine error,
    the transaction is rolled back on leaving the block and
    [execute_query] returns the failure dictionary of that error: the
    caller is not told the write succeeded. *)
Theorem execute_query_commit_failure (E : Engine) (db q k : string)
    (ps : option (list pyval)) (s s1 s2 s3 s4 s5 : eng_state E)
    (c : connection E) (cu : cursor E) (e : exn) :
  leading_keyword q = Some k -> k <> "SELECT" ->
  sq_connect E (PyPath.str (get_db_path db)) s = (s1, Ret c) ->
  sq_cursor E c s1 = (s2, Ret cu) ->
  sq_execute E cu q (bound ps) s2 = (s3, Ret tt) ->
  sq_commit E c s3 = (s4, Raise e) ->
  is_sqlite_error e = true ->
  sq_rollback E c s4 = (s5, Ret tt) ->
  run (execute_query E db q ps) s
  = (mkWorld s5 [EConnect (PyPath.str (get_db_path db)); ECursor;
                 EExecute q (bound ps); ECommit; ERollback],
     Ret (error_response e)).
Proof.
  intros Hk Hne Hco Hcu Hex Hcm He Hrb.
  destruct (query_tokens_keyword _ _ Hk) as [rest Hq].
  unfold run, execute_query, try_except, connect.
  rewrite (bind_call_ret E _ _ _ _ _ _ _ Hco).
  rewrite (with_connection_raise E c _ _ _ _ _ _
             (query_block_commit_raises E c cu q k ps rest e _ _ _ _ _
                Hq Hne Hcu Hex Hcm) Hrb).
  rewrite He; reflexivity.
Qed.

(** X3. A statement without any token handed to [execute_query] itself is
    executed by the engine before the leading token is looked for; the
    [IndexError] then rolls the transaction back and leaves
    [execute_query], which catches [sqlite3.Error] only. *)
Theorem execute_query_blank_executes_then_raises (E : Engine) (db q : string)
    (ps : option (list pyval)) (s s1 s2 s3 s4 : eng_state E)
    (c : connection E) (cu : cursor E) :
  all_space q = true ->
  sq_connect E (PyPath.str (get_db_path db)) s = (s1, Ret c) ->
  sq_cursor E c s1 = (s2, Ret cu) ->
  sq_execute E cu q (bound ps) s2 = (s3, Ret tt) ->
  sq_rollback E c s3 = (s4, Ret tt) ->
  run (execute_query E db q ps) s
  = (mkWorld s4 [EConnect (PyPath.str (get_db_path db)); ECursor;
                 EExecute q (bound ps); ERollback],
     Raise IndexError).
Proof.
  intros Hq Hco Hcu Hex Hrb.
  unfold run, execute_query, try_except, connect.
  rewrite (bind_call_ret E _ _ _ _ _ _ _ Hco).
  rewrite (with_connection_raise E c _ _ _ _ _ _
             (query_block_blank E c cu q ps _ _ _ _ Hq Hcu Hex) Hrb).
  reflexivity.
Qed.

Lemma execute_query_blank_executes_then_raises_witness :
  run (execute_query Demo.engine "main.db" " " None) Demo.s0
  = (@mkWorld Demo.engine
       (Demo.mkState ["data/main.db"; "data/main.db"] [Demo.users] [] []
          Demo.noon)
       [EConnect "data/main.db"; ECursor; EExecute " " None; ERollback],
     Raise IndexError).
Proof.
  eapply (execute_query_blank_executes_then_raises Demo.engine "main.db"
            " " None Demo.s0)
    with (c := "data/main.db") (cu := tt); reflexivity.
Defined.

(** ** What a computation returns *)

Section Returns.

Variable E : Engine.

Lemma returns_ret {A : Type} (P : A -> Prop) (a : A) :
  P a -> returns E P (ret E a).
Proof. intros H w w' a' Hr; injection Hr as _ <-; exact H. Qed.

Lemma returns_raise {A : Type} (P : A -> Prop) (e : exn) :
  returns E P (@raise E A e).
Proof. intros w w' a Hr; discriminate. Qed.

Lemma returns_bind {A B : Type} (P : B -> Prop) (m : M E A)
    (k : A -> M E B) :
  (forall a, returns E P (k a)) -> returns E P (bind E m k).
Proof.
  intros Hk w w' b; unfold bind.
  destruct (m w) as [w1 [a|e]]; [apply Hk | discriminate].
Qed.

Lemma returns_with {A : Type} (P : A -> Prop) (c : connection E)
    (body : M E A) :
  returns E P body -> returns E P (with_connection E c body).
Proof.
  intros Hb w w' a; unfold with_connection.
  destruct (body w) as [w1 [a1|e1]] eqn:Hbody.
  - destruct (commit E c w1) as [w2 [u|e2]].
    + intros Hr; injection Hr as _ <-; exact (Hb _ _ _ Hbody).
    + destruct (rollback E c w2) as [w3 [u|e3]]; discriminate.
  - destruct (rollback E c w1) as [w2 [u|e2]]; discriminate.
Qed.

Lemma returns_try {A : Type} (P : A -> Prop) (m : M E A)
    (catches : exn -> bool) (h : exn -> M E A) :
  returns E P m ->
  (forall e, catches e = true -> returns E P (h e)) ->
  returns E P (try_except E m catches h).
Proof.
  intros Hm Hh w w' a; unfold try_except.
  destruct (m w) as [w1 [a1|e1]] eqn:Hbody.
  - intros Hr; injection Hr as _ <-; exact (Hm _ _ _ Hbody).
  - destruct (catches e1) eqn:Hc; [apply (Hh e1 Hc) | discriminate].
Qed.

Lemma query_block_returns (c : connection E) (q : string)
    (ps : option (list pyval)) :
  returns E (fun r => read_result r \/ write_result r)
    (query_block E c q ps).
Proof.
  unfold query_block.
  apply returns_bind; intros cu.
  apply returns_bind; intros _.
  apply returns_bind; intros k.
  destruct (String.eqb k "SELECT").
  - apply returns_bind; intros rows; apply returns_ret; left.
    now eexists _, _, _.
  - apply returns_bind; intros _.
    apply returns_bind; intros n; apply returns_ret; right.
    now exists n.
Qed.

Lemma execute_query_returns_shape (db q : string)
    (ps : option (list pyval)) :
  returns E (fun r => read_result r \/ write_result r \/ failure_result r)
    (execute_query E db q ps).
Proof.
  unfold execute_query; apply returns_try.
  - apply returns_bind; intros c; apply returns_with.
    intros w w' r Hr.
    destruct (query_block_returns c q ps w w' r Hr) as [H|H]; tauto.
  - intros e He; apply returns_ret; right; right; now exists e.
Qed.

End Returns.

(** X4. Whatever the engine does, a dictionary [execute_query] returns is
    of exactly one of three forms: the rows read ([success], [data],
    [row_count], [truncated]), the write acknowledged ([success],
    [message], [rows_affected]), or the failure of an engine error
    ([success] false, [error], [error_type]). *)
Theorem execute_query_result_shape (E : Engine) (db q : string)
    (ps : option (list pyval)) (s : eng_state E) (w : world E) (r : pydict) :
  run (execute_query E db q ps) s = (w, Ret r) ->
  (read_result r /\ dict_get r "success" = Some (PBool true)
   /\ dict_get r "rows_affected" = None /\ dict_get r "error" = None)
  \/ (write_result r /\ dict_get r "success" = Some (PBool true)
      /\ dict_get r "data" = None /\ dict_get r "error" = None)
  \/ (failure_result r /\ dict_get r "success" = Some (PBool false)
      /\ dict_get r "data" = None /\ dict_get r "rows_affected" = None).
Proof.
  intros Hr.
  destruct (execute_query_returns_shape E db q ps _ _ _ Hr)
    as [H|[H|H]]; [left | right; left | right; right];
    (split; [exact H|]).
  - destruct H as (data & n & b & ->); repeat split; reflexivity.
  - destruct H as (n & ->); repeat split; reflexivity.
  - destruct H as (e & _ & ->); repeat split; reflexivity.
Qed.

Lemma execute_query_result_shape_witness :
  exists (w : world Demo.engine) (r : pydict),
    run (execute_query Demo.engine "main.db" "SELECT * FROM users" None)
      Demo.s0 = (w, Ret r)
    /\ ((read_result r /\ dict_get r "success" = Some (PBool true)
         /\ dict_get r "rows_affected" = None /\ dict_get r "error" = None)
        \/ (write_result r /\ dict_get r "success" = Some (PBool true)
            /\ dict_get r "data" = None /\ dict_get r "error" = None)
        \/ (failure_result r /\ dict_get r "success" = Some (PBool false)
            /\ dict_get r "data" = None /\ dict_get r "rows_affected" = None)).
Proof.
  eexists; eexists; split; [vm_compute; reflexivity|].
  eapply (execute_query_result_shape Demo.engine "main.db"
            "SELECT * FROM users" None Demo.s0).
  vm_compute; reflexivity.
Defined.

(** ** [execute_sql] around [execute_query] *)

(** X5. For a statement that passes the allow-list, the response of
    [execute_sql] is the dictionary [execute_query] returned, success or
    failure alike, followed by the two fields [database] and [timestamp]:
    nothing [execute_query] reported is overwritten. *)
Theorem execute_sql_adds_metadata (E : Engine) (p : QueryParams)
    (k : string) (s : eng_state E) (w : world E) (r : pydict) :
  leading_keyword (qp_query p) = Some k ->
  PyStr.in_list k (allowed_operations config) = true ->
  run (execute_sql E p) s = (w, Ret r) ->
  exists (w0 : world E) (r0 : pydict),
    run (execute_query E (qp_database p) (qp_query p) (qp_params p)) s
    = (w0, Ret r0)
    /\ r = (r0 ++ [("database", PStr (qp_database p));
                   ("timestamp",
                    PStr (isoformat (snd (clock_now E (w_state w0)))))])%list
    /\ w = mkWorld (fst (clock_now E (w_state w0))) (w_trace w0).
Proof.
  intros Hk Hin.
  destruct (query_tokens_keyword _ _ Hk) as [rest Hq].
  unfold run, execute_sql; rewrite Hq.
  unfold bind at 1; cbn [first_item ret]; rewrite Hin; cbn [negb].
  unfold bind at 1.
  destruct (execute_query E (qp_database p) (qp_query p) (qp_params p)
              (mkWorld s [])) as [w0 [r0|e]] eqn:Hrun; [|discriminate].
  unfold bind, now.
  destruct (clock_now E (w_state w0)) as [s' t] eqn:Hclk; cbn [ret].
  intros H; injection H as <- <-.
  exists w0, r0; rewrite Hclk; cbn [fst snd].
  split; [reflexivity|]; split; [|reflexivity].
  destruct (execute_query_returns_shape E _ _ _ _ _ _ Hrun)
    as [(data & n & b & ->)|[(n & ->)|(e & _ & ->)]]; reflexivity.
Qed.

Lemma execute_sql_adds_metadata_witness :
  exists (w0 : world Demo.engine) (r0 : pydict),
    run (execute_query Demo.engine "main.db" "DELETE FROM users" None)
      (Demo.mkState ["data/main.db"] [Demo.users] [] ["DELETE FROM users"]
         Demo.noon)
    = (w0, Ret r0)
    /\ [("success", PBool false); ("error", PStr "database is locked");
        ("error_type", PStr "OperationalError");
        ("database", PStr "main.db");
        ("timestamp", PStr "2024-03-09T12:00:05")]
       = (r0 ++ [("database", PStr "main.db");
                 ("timestamp",
                  PStr (isoformat
                          (snd (clock_now Demo.engine (w_state w0)))))])%list
    /\ @mkWorld Demo.engine
         (Demo.mkState ["data/main.db"; "data/main.db"] [Demo.users] []
            ["DELETE FROM users"] Demo.noon)
         [EConnect "data/main.db"; ECursor;
          EExecute "DELETE FROM users" None; ERollback]
       = mkWorld (fst (clock_now Demo.engine (w_state w0))) (w_trace w0).
Proof.
  apply (execute_sql_adds_metadata Demo.engine
           (mkQueryParams "DELETE FROM users" None "main.db") "DELETE"
           (Demo.mkState ["data/main.db"] [Demo.users] []
              ["DELETE FROM users"] Demo.noon));
    reflexivity.
Defined.

Lemma execute_sql_emits_query (E : Engine) (p : QueryParams) :
  emits E (query_event (qp_query p)) (execute_sql E p).
Proof.
  unfold execute_sql.
  destruct (query_tokens (qp_query p)) as [|k rest]; cbn [first_item].
  - apply emits_bind_raise.
  - apply emits_bind_ret.
    destruct (PyStr.in_list k (allowed_operations config));
      cbn [negb]; [|apply emits_ret].
    apply emits_bind; [apply execute_query_emits|].
    intros r; apply emits_bind; [apply emits_now | intros t; apply emits_ret].
Qed.

(** X6. Whatever the engine does, the only statement [execute_sql] has it
    execute is the caller's text, exactly as given (neither stripped nor
    upper-cased: the upper-casing serves the allow-list test only), and
    [execute_sql] never closes a connection nor fetches a single row. *)
Theorem execute_sql_forwards_verbatim (E : Engine) (p : QueryParams)
    (s : eng_state E) :
  Forall (query_event (qp_query p)) (w_trace (fst (run (execute_sql E p) s))).
Proof. apply emits_run, execute_sql_emits_query. Qed.

(** ** The leading keyword *)

Lemma upper_char_idempotent (c : ascii) :
  PyStr.upper_char (PyStr.upper_char c) = PyStr.upper_char c.
Proof. destruct c as [[] [] [] [] [] [] [] []]; reflexivity. Qed.

Lemma upper_idempotent (s : string) :
  PyStr.upper (PyStr.upper s) = PyStr.upper s.
Proof.
  induction s as [|c s IH]; cbn; [reflexivity|].
  now rewrite upper_char_idempotent, IH.
Qed.






Lemma lstrip_blank_prefix (ws q : string) :
  all_space ws = true -> PyStr.lstrip (ws ++ q) = PyStr.lstrip q.
Proof.
  induction ws as [|c ws IH]; cbn; [reflexivity|].
  destruct (PyStr.is_space c); cbn; [exact IH | discriminate].
Qed.

(** X8. The allow-list test sees neither the case of the statement nor
    white space before it: a statement, the same in upper case, and the
    same after any white space all have one leading keyword. *)
Theorem leading_keyword_ignores_case_and_indent (ws q : string) :
  all_space ws = true ->
  leading_keyword (PyStr.upper q) = leading_keyword q
  /\ leading_keyword (ws ++ q) = leading_keyword q.
Proof.
  intros Hws; unfold leading_keyword; rewrite !hd_split; split.
  - rewrite first_word_upper.
    destruct (first_word q); cbn; [now rewrite upper_idempotent | reflexivity].
  - unfold first_word; now rewrite (lstrip_blank_prefix ws q Hws).
Qed.

Lemma leading_keyword_ignores_case_and_indent_witness :
  leading_keyword (PyStr.upper "select 1") = leading_keyword "select 1"
  /\ leading_keyword ("  " ++ "select 1") = leading_keyword "select 1".
Proof.
  apply (leading_keyword_ignores_case_and_indent "  " "select 1").
  reflexivity.
Defined.

Lemma execute_query_commit_failure_witness :
  run (execute_query Faulty.engine "main.db" "DELETE FROM users" None) Demo.s0
  = (@mkWorld Faulty.engine
       (Demo.mkState ["data/main.db"; "data/main.db"] [Demo.users] [] []
          Demo.noon)
       [EConnect "data/main.db"; ECursor; EExecute "DELETE FROM users" None;
        ECommit; ERollback],
     Ret (error_response Faulty.refused)).
Proof.
  eapply (execute_query_commit_failure Faulty.engine "main.db"
            "DELETE FROM users" "DELETE" None Demo.s0)
    with (c := "data/main.db") (cu := tt) (e := Faulty.refused);
    try reflexivity.
  discriminate.
Defined.

(** ** [create_table] *)

Lemma query_block_returns_write (E : Engine) (c : connection E)
    (q k : string) (rest : list string) (ps : option (list pyval)) :
  query_tokens q = k :: rest -> k <> "SELECT" ->
  returns E write_result (query_block E c q ps).
Proof.
  intros Hq Hk; unfold query_block; rewrite Hq.
  apply returns_bind; intros cu.
  apply returns_bind; intros _.
  intros w w' r; rewrite (first_item_other E k rest _ _ _ _ Hk).
  revert w w' r; apply returns_bind; intros _.
  apply returns_bind; intros n; apply returns_ret; now exists n.
Qed.

(** X9. [create_table] always answers on an engine that raises nothing but
    [sqlite3.Error]: it returns the write acknowledgement or the failure of
    an engine error, never rows and never an exception; and the one
    statement it may have executed is the CREATE TABLE text it built, with
    the table and column names put in as they came. *)
Theorem create_table_always_answers (E : Engine) (p : CreateTableParams)
    (s : eng_state E) :
  sqlite_errors_only E ->
  exists (w : world E) (r : pydict),
    run (create_table E p) s = (w, Ret r)
    /\ (write_result r \/ failure_result r)
    /\ Forall (query_event (create_query p)) (w_trace w).
Proof.
  intros HE.
  pose proof (create_query_keyword p) as Hk.
  destruct (query_tokens_keyword _ _ Hk) as [rest Hq].
  destruct (execute_query_returns E (ct_database p) (create_query p) None
              (mkWorld s []) HE) as [w [r Hr]];
    [rewrite Hq; discriminate|].
  exists w, r; split; [exact Hr|]; split.
  - revert Hr; unfold execute_query.
    generalize (mkWorld s []); intros w0; revert w0 w r.
    apply (returns_try E (fun r => write_result r \/ failure_result r)).
    + apply returns_bind; intros c; apply returns_with.
      intros w0 w1 r Hr; left.
      apply (query_block_returns_write E c (create_query p) "CREATE" rest None
               Hq ltac:(discriminate) w0 w1 r Hr).
    + intros e He; apply returns_ret; right; now exists e.
  - pose proof (emits_run E (query_event (create_query p)) _ s
                  (execute_query_emits E (ct_database p) (create_query p)
                     None)) as F.
    unfold run in F, Hr; unfold create_table in Hr; rewrite Hr in F.
    exact F.
Qed.

Lemma create_table_always_answers_witness :
  sqlite_errors_only Demo.engine
  /\ exists (w : world Demo.engine) (r : pydict),
       run (create_table Demo.engine
              (mkCreateTableParams "main.db" "t" [("id", "INTEGER")] None))
         Demo.s0 = (w, Ret r)
       /\ (write_result r \/ failure_result r)
       /\ Forall (query_event "CREATE TABLE IF NOT EXISTS t (id INTEGER)")
            (w_trace w).
Proof.
  split; [exact demo_sqlite_errors_only|].
  exact (create_table_always_answers Demo.engine
           (mkCreateTableParams "main.db" "t" [("id", "INTEGER")] None)
           Demo.s0 demo_sqlite_errors_only).
Defined.

Lemma column_defs_unmarked (cols : list (string * string)) (k : string) :
  (forall c, In c cols -> fst c <> k) ->
  column_defs cols (Some k) = column_defs cols None.
Proof.
  intros H; unfold column_defs; apply map_ext_in; intros c Hc.
  cbn [truthy_str andb].
  rewrite (proj2 (String.eqb_neq (fst c) k) (H c Hc)), andb_false_r.
  reflexivity.
Qed.

(** X10. The primary key of [create_table]: the column that bears the
    given name is declared with PRIMARY KEY; a name that no column bears
    is dropped without a word, the statement being the one built with no
    primary key at all. *)
Theorem create_table_primary_key (E : Engine) (db t k : string)
    (cols : list (string * string)) :
  k <> "" ->
  (forall ty, In (k, ty) cols ->
     In (k ++ " " ++ ty ++ " PRIMARY KEY") (column_defs cols (Some k)))
  /\ ((forall c, In c cols -> fst c <> k) ->
      create_table E (mkCreateTableParams db t cols (Some k))
      = create_table E (mkCreateTableParams db t cols None)).
Proof.
  intros Hk; split.
  - intros ty Hin; unfold column_defs; apply in_map_iff.
    exists (k, ty); split; [|exact Hin].
    cbn [truthy_str fst snd].
    rewrite (proj2 (String.eqb_neq k "") Hk), String.eqb_refl; cbn [negb andb].
    now rewrite <- !append_assoc.
  - intros Habs; unfold create_table, create_query.
    cbn [ct_database ct_table_name ct_columns ct_primary_key].
    now rewrite (column_defs_unmarked cols k Habs).
Qed.

Lemma create_table_primary_key_witness :
  (forall ty, In ("id", ty) [("id", "INTEGER"); ("v", "TEXT")] ->
     In ("id" ++ " " ++ ty ++ " PRIMARY KEY")
       (column_defs [("id", "INTEGER"); ("v", "TEXT")] (Some "id")))
  /\ ((forall c, In c [("id", "INTEGER"); ("v", "TEXT")] -> fst c <> "id") ->
      create_table Demo.engine
        (mkCreateTableParams "main.db" "t" [("id", "INTEGER"); ("v", "TEXT")]
           (Some "id"))
      = create_table Demo.engine
          (mkCreateTableParams "main.db" "t"
             [("id", "INTEGER"); ("v", "TEXT")] None)).
Proof.
  apply (create_table_primary_key Demo.engine "main.db" "t" "id"
           [("id", "INTEGER"); ("v", "TEXT")]).
  discriminate.
Defined.

(** ** [get_schema] *)

Section SchemaTrace.

Variable E : Engine.
Variable Q : event -> Prop.

Lemma emits_mapM {A B : Type} (f : A -> M E B) (l : list A) :
  (forall a, emits E Q (f a)) -> emits E Q (mapM E f l).
Proof.
  intros Hf; induction l as [|x l IH]; cbn [mapM]; [apply emits_ret|].
  apply emits_bind; [apply Hf | intros y].
  apply emits_bind; [exact IH | intros ys; apply emits_ret].
Qed.

Lemma emits_foldM {A B : Type} (f : B -> A -> M E B) (l : list A) (b : B) :
  (forall b a, emits E Q (f b a)) -> emits E Q (foldM E f l b).
Proof.
  intros Hf; revert b; induction l as [|x l IH]; intros b; cbn [foldM];
    [apply emits_ret|].
  apply emits_bind; [apply Hf | intros b'; apply IH].
Qed.

Lemma emits_row_item (r : row) (i : nat) : emits E Q (row_item E r i).
Proof.
  unfold row_item; destruct (nth_error r i);
    [apply emits_ret | apply emits_raise].
Qed.

Lemma emits_optrow_item0 (o : option row) : emits E Q (optrow_item0 E o).
Proof.
  destruct o; [apply emits_row_item | apply emits_raise].
Qed.

End SchemaTrace.

Lemma pragma_table_info_keyword (t : string) :
  leading_keyword ("PRAGMA table_info(" ++ t ++ ")") = Some "PRAGMA".
Proof. unfold leading_keyword; rewrite hd_split; reflexivity. Qed.

Lemma pragma_index_list_keyword (t : string) :
  leading_keyword ("PRAGMA index_list(" ++ t ++ ")") = Some "PRAGMA".
Proof. unfold leading_keyword; rewrite hd_split; reflexivity. Qed.

Lemma pragma_index_info_keyword (t : string) :
  leading_keyword ("PRAGMA index_info(" ++ t ++ ")") = Some "PRAGMA".
Proof. unfold leading_keyword; rewrite hd_split; reflexivity. Qed.

Lemma select_count_keyword (t : string) :
  leading_keyword ("SELECT COUNT(*) FROM " ++ t) = Some "SELECT".
Proof. unfold leading_keyword; rewrite hd_split; reflexivity. Qed.

Lemma column_descriptor_emits (E : Engine) (col : row) :
  emits E schema_event (column_descriptor E col).
Proof.
  unfold column_descriptor.
  repeat (apply emits_bind; [apply emits_row_item | intros ?]).
  apply emits_ret.
Qed.

Lemma index_descriptor_emits (E : Engine) (cu : cursor E) (idx : row) :
  emits E schema_event (index_descriptor E cu idx).
Proof.
  unfold index_descriptor.
  apply emits_bind; [apply emits_row_item | intros i1].
  apply emits_bind;
    [apply emits_call; right; apply pragma_index_info_keyword | intros _].
  apply emits_bind; [apply emits_call; exact I | intros cols].
  apply emits_bind;
    [apply emits_mapM; intros col; apply emits_row_item | intros ics].
  repeat (apply emits_bind; [apply emits_row_item | intros ?]).
  apply emits_ret.
Qed.

Lemma table_info_emits (E : Engine) (cu : cursor E) (tables : pydict)
    (table : sqlval) :
  emits E schema_event (table_info E cu tables table).
Proof.
  unfold table_info.
  apply emits_bind;
    [apply emits_call; right; apply pragma_table_info_keyword | intros _].
  apply emits_bind; [apply emits_call; exact I | intros cols].
  apply emits_bind;
    [apply emits_mapM; apply column_descriptor_emits | intros columns].
  apply emits_bind;
    [apply emits_call; right; apply pragma_index_list_keyword | intros _].
  apply emits_bind; [apply emits_call; exact I | intros idxs].
  apply emits_bind;
    [apply emits_mapM; apply index_descriptor_emits | intros indexes].
  apply emits_bind;
    [apply emits_call; left; apply select_count_keyword | intros _].
  apply emits_bind; [apply emits_call; exact I | intros r].
  apply emits_bind; [apply emits_optrow_item0 | intros n].
  apply emits_ret.
Qed.

Lemma get_schema_emits (E : Engine) (p : SchemaParams) :
  emits E schema_event (get_schema E p).
Proof.
  unfold get_schema.
  apply emits_bind; [apply emits_pure | intros ex].
  destruct ex; cbn [negb]; [|apply emits_ret].
  apply emits_try; [|intros e; apply emits_ret].
  apply emits_bind; [apply emits_call; exact I | intros c].
  apply emits_with; try exact I.
  apply emits_bind; [apply emits_call; exact I | intros cu].
  apply emits_bind.
  - unfold enumerate_tables.
    apply emits_bind.
    + destruct (truthy_str (sp_table_name p)); apply emits_call; left;
        reflexivity.
    + intros _; apply emits_bind; [apply emits_call; exact I | intros rows].
      apply emits_mapM; intros r; apply emits_row_item.
  - intros tables; apply emits_bind.
    + apply emits_foldM; intros b a; apply table_info_emits.
    + intros infos; apply emits_ret.
Qed.

(** X11. [get_schema] only reads: whatever the engine does and whatever
    the names of the tables are, every statement it has the engine execute
    has SELECT or PRAGMA for leading keyword.  It never closes the
    connection it opens. *)
Theorem get_schema_only_reads (E : Engine) (p : SchemaParams)
    (s : eng_state E) :
  Forall schema_event (w_trace (fst (run (get_schema E p) s))).
Proof. apply emits_run, get_schema_emits. Qed.

(** X12. [get_schema] on a database file that does not exist answers with
    a failure dictionary and calls nothing: no connection is opened (which
    would create the file) and the state is untouched. *)
Theorem get_schema_missing_database (E : Engine) (p : SchemaParams)
    (s : eng_state E) :
  fs_exists E (PyPath.str (get_db_path (sp_database p))) s = false ->
  run (get_schema E p) s
  = (mkWorld s [],
     Ret [("success", PBool false);
          ("error",
           PStr ("Database " ++ sp_database p ++ " does not exist"))]).
Proof.
  intros Hex; unfold run, get_schema, bind, path_exists; cbn [w_state].
  rewrite Hex; reflexivity.
Qed.

Lemma get_schema_missing_database_witness :
  run (get_schema Demo.engine (mkSchemaParams "other.db" None)) Demo.s0
  = (@mkWorld Demo.engine Demo.s0 [],
     Ret [("success", PBool false);
          ("error", PStr "Database other.db does not exist")]).
Proof.
  apply (get_schema_missing_database Demo.engine
           (mkSchemaParams "other.db" None) Demo.s0).
  reflexivity.
Defined.

Lemma row_item_cell (E : Engine) (r : row) (i : nat) (w : world E) :
  i < length r -> row_item E r i w = (w, Ret (cell r i)).
Proof.
  intros Hi; unfold row_item, cell.
  now rewrite (nth_error_nth' r ("", SNull) Hi).
Qed.

Lemma column_descriptor_run (E : Engine) (col : row) (w : world E) :
  6 <= length col ->
  column_descriptor E col w = (w, Ret (descriptor col)).
Proof.
  intros Hl; unfold column_descriptor, bind.
  rewrite !row_item_cell by lia; reflexivity.
Qed.

Lemma column_descriptors_run (E : Engine) (cols : list row) (w : world E) :
  (forall col, In col cols -> 6 <= length col) ->
  mapM E (column_descriptor E) cols w = (w, Ret (map descriptor cols)).
Proof.
  induction cols as [|col cols IH]; intros H; [reflexivity|].
  cbn [mapM map]; unfold bind at 1.
  rewrite (column_descriptor_run E col w) by (apply H; now left).
  unfold bind at 1; rewrite IH by (intros c Hc; apply H; now right).
  reflexivity.
Qed.

(** X13. The step of [get_schema] for one table that has no index, on an
    engine that answers the three statements: the entry stored under the
    table's name holds one column descriptor per row of
    [PRAGMA table_info], in the order of the rows, each read from the
    cells 1 to 5 of its row, an empty index list, and the count that
    [SELECT COUNT( * )] returned. *)
Theorem table_info_reports_columns_in_order (E : Engine) (cu : cursor E)
    (tables : pydict) (name : string) (cols : list row) (cnt : row)
    (tr : list event) (s0 s1 s2 s3 s4 s5 s6 : eng_state E) :
  (forall col, In col cols -> 6 <= length col) ->
  1 <= length cnt ->
  sq_execute E cu ("PRAGMA table_info(" ++ name ++ ")") None s0
  = (s1, Ret tt) ->
  sq_fetchall E cu s1 = (s2, Ret cols) ->
  sq_execute E cu ("PRAGMA index_list(" ++ name ++ ")") None s2
  = (s3, Ret tt) ->
  sq_fetchall E cu s3 = (s4, Ret []) ->
  sq_execute E cu ("SELECT COUNT(*) FROM " ++ name) None s4 = (s5, Ret tt) ->
  sq_fetchone E cu s5 = (s6, Ret (Some cnt)) ->
  table_info E cu tables (SText name) (mkWorld s0 tr)
  = (mkWorld s6
       (tr ++ [EExecute ("PRAGMA table_info(" ++ name ++ ")") None; EFetchall;
               EExecute ("PRAGMA index_list(" ++ name ++ ")") None; EFetchall;
               EExecute ("SELECT COUNT(*) FROM " ++ name) None; EFetchone])%list,
     Ret (dict_set tables name
            (PDict [("columns", PList (map descriptor cols));
                    ("indexes", PList []);
                    ("row_count", to_py (cell cnt 0))]))).
Proof.
  intros Hcols Hcnt H1 H2 H3 H4 H5 H6.
  unfold table_info, execute, fetchall, fetchone; cbn [fmt].
  rewrite (bind_call_ret E _ _ _ _ _ _ _ H1).
  rewrite (bind_call_ret E _ _ _ _ _ _ _ H2).
  unfold bind at 1; rewrite (column_descriptors_run E cols _ Hcols).
  rewrite (bind_call_ret E _ _ _ _ _ _ _ H3).
  rewrite (bind_call_ret E _ _ _ _ _ _ _ H4).
  unfold bind at 1; cbn [mapM ret].
  rewrite (bind_call_ret E _ _ _ _ _ _ _ H5).
  rewrite (bind_call_ret E _ _ _ _ _ _ _ H6).
  unfold bind, optrow_item0; rewrite row_item_cell by lia.
  cbn [ret]; rewrite <- !app_assoc; reflexivity.
Qed.

Lemma table_info_reports_columns_in_order_witness :
  table_info Demo.engine tt [] (SText "users") (@mkWorld Demo.engine Demo.s0 [])
  = (@mkWorld Demo.engine Demo.s0
       [EExecute "PRAGMA table_info(users)" None; EFetchall;
        EExecute "PRAGMA index_list(users)" None; EFetchall;
        EExecute "SELECT COUNT(*) FROM users" None; EFetchone],
     Ret [("users",
           PDict [("columns",
                   PList [PDict [("name", PStr "id"); ("type", PStr "INTEGER");
                                 ("not_null", PBool false);
                                 ("default_value", PNone);
                                 ("primary_key", PBool false)];
                          PDict [("name", PStr "name"); ("type", PStr "TEXT");
                                 ("not_null", PBool false);
                                 ("default_value", PNone);
                                 ("primary_key", PBool false)]]);
                  ("indexes", PList []);
                  ("row_count", PInt 2)])]).
Proof.
  eapply (table_info_reports_columns_in_order Demo.engine tt [] "users"
            (Demo.column_rows 0 (Demo.t_columns Demo.users))
            [("COUNT(*)", SInt 2)] []);
    try reflexivity.
  all: try (intros col [<-|[<-|[]]]; cbn; lia).
  all: cbn; lia.
Defined.

(** X14. Whatever the engine does, a dictionary [get_schema] returns is
    one of three: the failure for a missing file ([success] false and a
    message, no [error_type]), the failure of an engine error, or
    [success] true with the database name and the [tables] mapping. *)
Theorem get_schema_result_shape (E : Engine) (p : SchemaParams)
    (s : eng_state E) (w : world E) (r : pydict) :
  run (get_schema E p) s = (w, Ret r) ->
  r = [("success", PBool false);
       ("error", PStr ("Database " ++ sp_database p ++ " does not exist"))]
  \/ failure_result r
  \/ exists infos : pydict,
       r = [("success", PBool true);
            ("database", PStr (sp_database p));
            ("tables", PDict infos)].
Proof.
  unfold run; generalize (mkWorld s []); intros w0; revert w0 w r.
  change (returns E
            (fun r =>
               r = [("success", PBool false);
                    ("error",
                     PStr ("Database " ++ sp_database p ++ " does not exist"))]
               \/ failure_result r
               \/ exists infos : pydict,
                    r = [("success", PBool true);
                         ("database", PStr (sp_database p));
                         ("tables", PDict infos)])
            (get_schema E p)).
  unfold get_schema; apply returns_bind; intros ex.
  destruct ex; cbn [negb]; [|apply returns_ret; now left].
  apply returns_try.
  - apply returns_bind; intros c; apply returns_with.
    apply returns_bind; intros cu.
    apply returns_bind; intros tables.
    apply returns_bind; intros infos.
    apply returns_ret; right; right; now exists infos.
  - intros e He; apply returns_ret; right; left; now exists e.
Qed.

Lemma get_schema_result_shape_witness :
  exists (w : world Demo.engine) (r : pydict),
    run (get_schema Demo.engine (mkSchemaParams "main.db" (Some "nope")))
      Demo.s0 = (w, Ret r)
    /\ (r = [("success", PBool false);
             ("error", PStr ("Database " ++ "main.db" ++ " does not exist"))]
        \/ failure_result r
        \/ exists infos : pydict,
             r = [("success", PBool true);
                  ("database", PStr "main.db");
                  ("tables", PDict infos)]).
Proof.
  eexists; eexists; split; [vm_compute; reflexivity|].
  eapply (get_schema_result_shape Demo.engine
            (mkSchemaParams "main.db" (Some "nope")) Demo.s0).
  vm_compute; reflexivity.
Defined.

(** ** [backup_database] *)


(** X16. A backup to a destination given by the caller: the destination
    is that path as [Path] prints it, wherever it lies (it is not joined
    to the sandbox directory).  When both files open and the copy
    succeeds, source then destination are closed and the response names
    the destination. *)
Theorem backup_database_explicit_destination (E : Engine)
    (p : BackupParams) (dest : string)
    (s s1 s2 s3 s4 s5 : eng_state E) (src dst : connection E) :
  bp_backup_path p = Some dest -> dest <> "" ->
  fs_exists E (PyPath.str (get_db_path (bp_source_db p))) s = true ->
  sq_connect E (PyPath.str (get_db_path (bp_source_db p))) s = (s1, Ret src) ->
  sq_connect E (PyPath.str (PyPath.Path dest)) s1 = (s2, Ret dst) ->
  sq_backup E src dst s2 = (s3, Ret tt) ->
  sq_close E src s3 = (s4, Ret tt) ->
  sq_close E dst s4 = (s5, Ret tt) ->
  run (backup_database E p) s
  = (mkWorld (fst (clock_now E s5))
       [EConnect (PyPath.str (get_db_path (bp_source_db p)));
        EConnect (PyPath.str (PyPath.Path dest)); EBackup; EClose; EClose],
     Ret [("success", PBool true);
          ("message", PStr "Database backed up successfully");
          ("backup_path", PStr (PyPath.str (PyPath.Path dest)));
          ("timestamp", PStr (isoformat (snd (clock_now E s5))))]).
Proof.
  intros Hd Hne Hex Hc1 Hc2 Hb Hx1 Hx2.
  unfold run, backup_database, bind at 1, path_exists; cbn [w_state].
  rewrite Hex; cbn [negb].
  unfold backup_destination; rewrite Hd; cbn [truthy_str].
  rewrite (proj2 (String.eqb_neq dest "") Hne); cbn [negb].
  unfold bind at 1; cbn [ret].
  unfold try_except, connect, backup, close.
  rewrite (bind_call_ret E _ _ _ _ _ _ _ Hc1).
  rewrite (bind_call_ret E _ _ _ _ _ _ _ Hc2).
  rewrite (bind_call_ret E _ _ _ _ _ _ _ Hb).
  rewrite (bind_call_ret E _ _ _ _ _ _ _ Hx1).
  rewrite (bind_call_ret E _ _ _ _ _ _ _ Hx2).
  unfold bind, now; cbn [w_state w_trace app].
  destruct (clock_now E s5); reflexivity.
Qed.

Lemma backup_database_explicit_destination_witness :
  run (backup_database Demo.engine
         (mkBackupParams "main.db" (Some "/tmp/copy.db"))) Demo.s0
  = (@mkWorld Demo.engine
       (Demo.mkState ["/tmp/copy.db"; "data/main.db"; "data/main.db"]
          [Demo.users] [] [] Demo.noon)
       [EConnect "data/main.db"; EConnect "/tmp/copy.db"; EBackup; EClose;
        EClose],
     Ret [("success", PBool true);
          ("message", PStr "Database backed up successfully");
          ("backup_path", PStr "/tmp/copy.db");
          ("timestamp", PStr "2024-03-09T12:00:05")]).
Proof.
  eapply (backup_database_explicit_destination Demo.engine
            (mkBackupParams "main.db" (Some "/tmp/copy.db")) "/tmp/copy.db"
            Demo.s0)
    with (src := "data/main.db") (dst := "/tmp/copy.db");
    try reflexivity.
  discriminate.
Defined.

(** X17. When the copy itself raises, whatever the class of the
    exception, [backup_database] returns its failure dictionary and closes
    neither connection: both were opened, and the two [close] calls, which
    come after the copy inside the [try], are skipped. *)
Theorem backup_database_failure_leaves_connections_open (E : Engine)
    (p : BackupParams) (dest : string) (e : exn)
    (s s1 s2 s3 : eng_state E) (src dst : connection E) :
  bp_backup_path p = Some dest -> dest <> "" ->
  fs_exists E (PyPath.str (get_db_path (bp_source_db p))) s = true ->
  sq_connect E (PyPath.str (get_db_path (bp_source_db p))) s = (s1, Ret src) ->
  sq_connect E (PyPath.str (PyPath.Path dest)) s1 = (s2, Ret dst) ->
  sq_backup E src dst s2 = (s3, Raise e) ->
  run (backup_database E p) s
  = (mkWorld s3
       [EConnect (PyPath.str (get_db_path (bp_source_db p)));
        EConnect (PyPath.str (PyPath.Path dest)); EBackup],
     Ret (error_response e)).
Proof.
  intros Hd Hne Hex Hc1 Hc2 Hb.
  unfold run, backup_database, bind at 1, path_exists; cbn [w_state].
  rewrite Hex; cbn [negb].
  unfold backup_destination; rewrite Hd; cbn [truthy_str].
  rewrite (proj2 (String.eqb_neq dest "") Hne); cbn [negb].
  unfold bind at 1; cbn [ret].
  unfold try_except, connect, backup.
  rewrite (bind_call_ret E _ _ _ _ _ _ _ Hc1).
  rewrite (bind_call_ret E _ _ _ _ _ _ _ Hc2).
  rewrite (bind_call_raise E _ _ _ _ _ _ _ Hb).
  reflexivity.
Qed.

Lemma backup_database_failure_leaves_connections_open_witness :
  run (backup_database Faulty.engine
         (mkBackupParams "main.db" (Some "copy.db"))) Demo.s0
  = (@mkWorld Faulty.engine
       (Demo.mkState ["copy.db"; "data/main.db"; "data/main.db"]
          [Demo.users] [] [] Demo.noon)
       [EConnect "data/main.db"; EConnect "copy.db"; EBackup],
     Ret (error_response Faulty.refused)).
Proof.
  eapply (backup_database_failure_leaves_connections_open Faulty.engine
            (mkBackupParams "main.db" (Some "copy.db")) "copy.db"
            Faulty.refused Demo.s0)
    with (src := "data/main.db") (dst := "copy.db");
    try reflexivity.
  discriminate.
Defined.

(** ** [list_databases] *)

Section ListingProperties.

Variable E : Engine.
Variable D : Directory E.

Lemma database_entry_returns (n : string) (w w' : world E) (en : pyval) :
  database_entry E D n w = (w', Ret en) -> entry_of n en.
Proof.
  unfold database_entry, bind, perform.
  destruct (fs_stat E D _ (w_state w)) as [s1 [[size mt]|e]]; [|discriminate].
  cbn [snd fst]; destruct (fromtimestamp E D mt) as [t|e]; [|discriminate].
  cbn [ret]; intros H; injection H as _ <-; now exists size, t.
Qed.

Lemma mapM_returns {A B : Type} (f : A -> M E B) (R : A -> B -> Prop)
    (l : list A) :
  (forall a w w' b, f a w = (w', Ret b) -> R a b) ->
  forall w w' bs, mapM E f l w = (w', Ret bs) -> Forall2 R l bs.
Proof.
  intros Hf; induction l as [|x l IH]; intros w w' bs; cbn [mapM].
  - intros H; injection H as _ <-; constructor.
  - unfold bind at 1; destruct (f x w) as [w1 [y|e]] eqn:Hx; [|discriminate].
    unfold bind at 1; destruct (mapM E f l w1) as [w2 [ys|e]] eqn:Hl;
      [|discriminate].
    cbn [ret]; intros H; injection H as _ <-.
    constructor; [exact (Hf _ _ _ _ Hx) | exact (IH _ _ _ Hl)].
Qed.

Lemma mapM_total {A B : Type} (f : A -> M E B) (l : list A) (w : world E) :
  (forall a w, exists w' b, f a w = (w', Ret b)) ->
  exists w' bs, mapM E f l w = (w', Ret bs).
Proof.
  intros Hf; revert w; induction l as [|x l IH]; intros w; cbn [mapM].
  - now eexists _, _.
  - destruct (Hf x w) as [w1 [y Hy]]; destruct (IH w1) as [w2 [ys Hys]].
    unfold bind; rewrite Hy, Hys; now eexists _, _.
Qed.

End ListingProperties.

(** X18. [list_databases] answers whatever happens, and the dictionary is
    one of two: [success] true with the list [databases] and [count] equal
    to its length, or [success] false with the message of the exception
    and nothing else (no [error_type], no partial list). *)
Theorem list_databases_always_answers (E : Engine) (D : Directory E)
    (s : eng_state E) :
  exists (w : world E) (r : pydict),
    run (list_databases E D) s = (w, Ret r)
    /\ ((exists entries : list pyval,
           r = [("success", PBool true);
                ("databases", PList entries);
                ("count", PInt (Z.of_nat (length entries)))])
        \/ (exists e : exn,
              r = [("success", PBool false); ("error", PStr (exn_msg e))])).
Proof.
  unfold run, list_databases, try_except.
  match goal with
  | |- context [bind E ?m ?k (mkWorld s [])] =>
      destruct (bind E m k (mkWorld s [])) as [w [r|e]] eqn:Hb
  end.
  - exists w, r; split; [reflexivity|]; left.
    revert Hb; unfold bind.
    destruct (perform E _ _) as [w1 [names|e]]; [|discriminate].
    destruct (mapM E _ names w1) as [w2 [entries|e]]; [|discriminate].
    cbn [ret]; intros H; injection H as _ <-; now exists entries.
  - eexists _, _; split; [reflexivity|]; right; now exists e.
Qed.

(** X19. When the directory can be read and every file examined, the
    listing has one entry per name [glob] gave, in that order; the entry
    of the file [n] names it [n] and gives ["data/" ++ n] for its path,
    and [count] is the number of names. *)
Theorem list_databases_lists_every_file (E : Engine) (D : Directory E)
    (s s1 : eng_state E) (names : list string) :
  fs_glob E D (PyPath.str (data_dir config)) "*.db" s = (s1, Ret names) ->
  (forall path st, exists st' size mt,
     fs_stat E D path st = (st', Ret (size, mt))) ->
  (forall mt, exists t, fromtimestamp E D mt = Ret t) ->
  exists (w : world E) (entries : list pyval),
    run (list_databases E D) s
    = (w, Ret [("success", PBool true);
               ("databases", PList entries);
               ("count", PInt (Z.of_nat (length names)))])
    /\ Forall2 entry_of names entries.
Proof.
  intros Hg Hstat Hts.
  assert (Htot : forall n w, exists w' en,
             database_entry E D n w = (w', Ret en)).
  { intros n w; unfold database_entry, bind, perform.
    destruct (Hstat (PyPath.str (child (data_dir config) n)) (w_state w))
      as (st' & size & mt & ->).
    cbn [snd]; destruct (Hts mt) as [t ->]; now eexists _, _. }
  destruct (mapM_total E (database_entry E D) names (mkWorld s1 []) Htot)
    as [w [entries Hm]].
  pose proof (mapM_returns E (database_entry E D) entry_of names
                (database_entry_returns E D) _ _ _ Hm) as F.
  exists w, entries; split; [|exact F].
  unfold run, list_databases, try_except, bind at 1, perform; cbn [w_state].
  rewrite Hg; cbn [w_trace]; unfold bind; rewrite Hm; cbn [ret].
  now rewrite (Forall2_length F).
Qed.

Lemma list_databases_lists_every_file_witness :
  exists (w : world Demo.engine) (entries : list pyval),
    run (list_databases Demo.engine (DemoDir.directory [])) DemoDir.s2
    = (w, Ret [("success", PBool true);
               ("databases", PList entries);
               ("count", PInt 2)])
    /\ Forall2 entry_of ["main.db"; "old.db"] entries.
Proof.
  eapply (list_databases_lists_every_file Demo.engine (DemoDir.directory [])
            DemoDir.s2 DemoDir.s2 ["main.db"; "old.db"]).
  - reflexivity.
  - intros path st; now exists st, 4096%Z, tt.
  - intros mt; now exists Demo.noon.
Defined.

(** X20. One file that cannot be examined fails the whole listing: if
    [stat] raises on a file [glob] gave, [list_databases] returns
    [success] false with a message and no list, whatever the other files
    are. *)
Theorem list_databases_one_bad_file (E : Engine) (D : Directory E)
    (s s1 : eng_state E) (names : list string) (bad : string) :
  fs_glob E D (PyPath.str (data_dir config)) "*.db" s = (s1, Ret names) ->
  In bad names ->
  (forall st, exists st' e, fs_stat E D ("data/" ++ bad) st = (st', Raise e)) ->
  exists (w : world E) (e : exn),
    run (list_databases E D) s
    = (w, Ret [("success", PBool false); ("error", PStr (exn_msg e))]).
Proof.
  intros Hg Hin Hbad.
  unfold run, list_databases, try_except, bind at 1, perform; cbn [w_state].
  rewrite Hg; cbn [w_trace]; unfold bind.
  destruct (mapM E (database_entry E D) names (mkWorld s1 []))
    as [w [entries|e]] eqn:Hm; [|now exists w, e].
  exfalso.
  pose proof (mapM_returns E (database_entry E D)
                (fun n _ => exists w1 w2 en,
                   database_entry E D n w1 = (w2, Ret en))
                names (fun a w1 w2 b H => ex_intro _ w1 (ex_intro _ w2
                         (ex_intro _ b H))) _ _ _ Hm) as F.
  assert (Hall : forall n, In n names ->
             exists w1 w2 en, database_entry E D n w1 = (w2, Ret en)).
  { clear -F; induction F as [|n en l l' H _ IH]; intros m [].
    - subst; exact H.
    - now apply IH. }
  destruct (Hall bad Hin) as (w1 & w2 & en & Hen).
  revert Hen; unfold database_entry, bind, perform.
  change (PyPath.str (child (data_dir config) bad)) with ("data/" ++ bad).
  destruct (Hbad (w_state w1)) as (st' & e & ->); discriminate.
Qed.

Lemma list_databases_one_bad_file_witness :
  exists (w : world Demo.engine) (e : exn),
    run (list_databases Demo.engine (DemoDir.directory ["data/old.db"]))
      DemoDir.s2
    = (w, Ret [("success", PBool false); ("error", PStr (exn_msg e))]).
Proof.
  eapply (list_databases_one_bad_file Demo.engine
            (DemoDir.directory ["data/old.db"]) DemoDir.s2 DemoDir.s2
            ["main.db"; "old.db"] "old.db").
  - reflexivity.
  - right; now left.
  - intros st; eexists _, _; reflexivity.
Defined.

(** ** The rows [execute_query] returns *)








(** ** More on the path resolver *)

Lemma is_prefix_app_same (l a b : list string) :
  PyPath.is_prefix (l ++ a)%list (l ++ b)%list = PyPath.is_prefix a b.
Proof.
  induction l as [|x l IH]; [reflexivity|].
  cbn; now rewrite String.eqb_refl, IH.
Qed.

(** X22. A database name that is one plain file name (no slash, at least
    two characters) resolves to that entry of the sandbox directory:
    [get_db_path] gives the very path [list_databases] reports for the
    file of that name, printed ["data/" ++ name]. *)
Theorem get_db_path_plain_name (n : string) :
  has_slash n = false -> 2 <= String.length n ->
  get_db_path n = child (data_dir config) n
  /\ PyPath.str (get_db_path n) = "data/" ++ n
  /\ PyPath.name (get_db_path n) = n.
Proof.
  intros Hs Hl.
  assert (Hp : get_db_path n = child (data_dir config) n).
  { unfold get_db_path, PyPath.joinpath.
    rewrite (Path_single n Hs Hl).
    destruct n as [|c r]; [cbn in Hl; lia|].
    cbn in Hs; apply orb_false_elim in Hs as [Hc _].
    cbn [PyPath.starts_with_slash]; rewrite Hc; reflexivity. }
  rewrite Hp; repeat split; reflexivity.
Qed.

Lemma get_db_path_plain_name_witness :
  get_db_path "main.db" = child (data_dir config) "main.db"
  /\ PyPath.str (get_db_path "main.db") = "data/" ++ "main.db"
  /\ PyPath.name (get_db_path "main.db") = "main.db".
Proof.
  apply (get_db_path_plain_name "main.db"); [reflexivity | cbn; lia].
Defined.

(** X23. A name that climbs one directory, ["../" ++ n] for a plain file
    name [n] other than [data], resolves outside the sandbox directory
    from every working directory: to the file [n] beside it. *)
Theorem get_db_path_parent_escapes (cwd : list string) (n : string) :
  has_slash n = false -> 3 <= String.length n -> n <> "data" ->
  get_db_path ("../" ++ n) = PyPath.mkPath "" ["data"; ".."; n]
  /\ PyPath.location cwd (get_db_path ("../" ++ n))
     = (rev (PyPath.walk [] cwd) ++ [n])%list
  /\ PyPath.within cwd (data_dir config) (get_db_path ("../" ++ n)) = false.
Proof.
  intros Hs Hl Hn.
  assert (Hp : get_db_path ("../" ++ n) = PyPath.mkPath "" ["data"; ".."; n]).
  { unfold get_db_path, PyPath.joinpath, PyPath.Path.
    cbn [PyPath.starts_with_slash append Ascii.eqb Bool.eqb PyStr.split_on].
    rewrite (split_on_plain n Hs).
    cbn [filter PyPath.keep_part String.eqb Ascii.eqb Bool.eqb negb andb].
    unfold PyPath.keep_part.
    rewrite (length_differs n "") by (cbn; lia).
    rewrite (length_differs n ".") by (cbn; lia).
    reflexivity. }
  assert (Hloc : PyPath.location cwd (PyPath.mkPath "" ["data"; ".."; n])
                 = (rev (PyPath.walk [] cwd) ++ [n])%list).
  { unfold PyPath.location.
    cbn [PyPath.root PyPath.parts String.eqb PyPath.walk fold_left].
    unfold PyPath.walk1 at 3; cbn [String.eqb Ascii.eqb Bool.eqb].
    unfold PyPath.walk1 at 2; cbn [String.eqb Ascii.eqb Bool.eqb tl].
    unfold PyPath.walk1.
    rewrite (length_differs n "..") by (cbn; lia).
    reflexivity. }
  rewrite Hp; split; [reflexivity|]; split; [exact Hloc|].
  unfold PyPath.within; rewrite Hloc, location_root, is_prefix_app_same.
  cbn [PyPath.is_prefix].
  now rewrite (proj2 (String.eqb_neq "data" n) (fun H => Hn (eq_sym H))).
Qed.

Lemma get_db_path_parent_escapes_witness :
  get_db_path ("../" ++ "secrets.db")
  = PyPath.mkPath "" ["data"; ".."; "secrets.db"]
  /\ PyPath.location ["srv"; "app"] (get_db_path ("../" ++ "secrets.db"))
     = (rev (PyPath.walk [] ["srv"; "app"]) ++ ["secrets.db"])%list
  /\ PyPath.within ["srv"; "app"] (data_dir config)
       (get_db_path ("../" ++ "secrets.db")) = false.
Proof.
  apply (get_db_path_parent_escapes ["srv"; "app"] "secrets.db");
    [reflexivity | cbn; lia | discriminate].
Defined.

(** ** Backup names and the clock *)

Lemma read_nat_acc_append (a b : string) (acc : nat) :
  read_nat_acc acc (a ++ b) = read_nat_acc (read_nat_acc acc a) b.
Proof.
  revert acc; induction a as [|c a IH]; intros acc; cbn; [reflexivity|].
  apply IH.
Qed.

Lemma digit_value_char (d : nat) :
  d < 10 -> digit_value (PyStr.digit_char d) = d.
Proof.
  intros H; do 10 (destruct d as [|d]; [reflexivity|]); lia.
Qed.

Lemma read_digits (fuel n acc : nat) :
  n < fuel ->
  read_nat_acc acc (PyStr.digits_fuel fuel n)
  = acc * 10 ^ String.length (PyStr.digits_fuel fuel n) + n.
Proof.
  revert n acc; induction fuel as [|fuel IH]; intros n acc Hn; [lia|].
  cbn [PyStr.digits_fuel]; destruct (Nat.ltb_spec n 10) as [Hlt|Hge].
  - cbn [read_nat_acc String.length]; rewrite (digit_value_char n Hlt).
    change (10 ^ 1) with 10; lia.
  - assert (Hq : n / 10 < fuel).
    { assert (n / 10 < n) by (apply Nat.div_lt; lia); lia. }
    rewrite read_nat_acc_append, (IH (n / 10) acc Hq), length_append.
    cbn [read_nat_acc String.length].
    rewrite digit_value_char by (apply Nat.mod_upper_bound; lia).
    rewrite Nat.add_1_r, Nat.pow_succ_r'.
    pose proof (Nat.div_mod_eq n 10) as Hdm.
    set (X := 10 ^ String.length (PyStr.digits_fuel fuel (n / 10))).
    nia.
Qed.

Lemma read_zeros (k acc : nat) (s : string) :
  read_nat_acc acc (PyStr.zeros k ++ s) = read_nat_acc (acc * 10 ^ k) s.
Proof.
  revert acc; induction k as [|k IH]; intros acc.
  - cbn [PyStr.zeros append]; f_equal; cbn; lia.
  - cbn [PyStr.zeros append read_nat_acc]; rewrite IH; f_equal.
    change (digit_value "0") with 0; rewrite Nat.pow_succ_r'; lia.
Qed.

(** Reading back a padded number gives the number. *)
Lemma read_pad (w n : nat) : read_nat (PyStr.pad w n) = n.
Proof.
  unfold read_nat, PyStr.pad, PyStr.of_nat.
  rewrite read_zeros, read_digits by lia; lia.
Qed.

Lemma append_same_length (a a' b b' : string) :
  String.length a = String.length a' ->
  a ++ b = a' ++ b' -> a = a' /\ b = b'.
Proof.
  revert a'; induction a as [|c a IH]; intros [|c' a'] Hl; cbn in Hl;
    try discriminate; cbn [append]; [now split|].
  intros H; injection H as -> H.
  destruct (IH a' ltac:(lia) H) as [-> ->]; now split.
Qed.

Lemma append_cancel_left (a b b' : string) : a ++ b = a ++ b' -> b = b'.
Proof. intros H; now apply (append_same_length a a b b' eq_refl). Qed.

Lemma append_cancel_right (a a' b : string) : a ++ b = a' ++ b -> a = a'.
Proof.
  intros H; apply (append_same_length a a' b b); [|exact H].
  apply (f_equal String.length) in H; rewrite !length_append in H; lia.
Qed.

Lemma strftime_backup_same_second (t t' : datetime) :
  valid_datetime t -> valid_datetime t' ->
  strftime_backup t = strftime_backup t' -> same_second t t'.
Proof.
  intros (Hy & Hm & Hd & HH & HM & HS) (Hy' & Hm' & Hd' & HH' & HM' & HS').
  unfold strftime_backup; intros H.
  pose proof (proj1 (pad4_digits (year t) ltac:(lia))) as L1.
  pose proof (proj1 (pad4_digits (year t') ltac:(lia))) as L1'.
  apply append_same_length in H as [E1 H]; [|congruence].
  pose proof (proj1 (pad2_digits (month t) ltac:(lia))) as L2.
  pose proof (proj1 (pad2_digits (month t') ltac:(lia))) as L2'.
  apply append_same_length in H as [E2 H]; [|congruence].
  pose proof (proj1 (pad2_digits (day t) ltac:(lia))) as L3.
  pose proof (proj1 (pad2_digits (day t') ltac:(lia))) as L3'.
  apply append_same_length in H as [E3 H]; [|congruence].
  apply append_cancel_left in H.
  pose proof (proj1 (pad2_digits (hour t) ltac:(lia))) as L4.
  pose proof (proj1 (pad2_digits (hour t') ltac:(lia))) as L4'.
  apply append_same_length in H as [E4 H]; [|congruence].
  pose proof (proj1 (pad2_digits (minute t) ltac:(lia))) as L5.
  pose proof (proj1 (pad2_digits (minute t') ltac:(lia))) as L5'.
  apply append_same_length in H as [E5 E6]; [|congruence].
  apply (f_equal read_nat) in E1, E2, E3, E4, E5, E6.
  rewrite !read_pad in *.
  repeat split; assumption.
Qed.

(** X24. Backups of one source taken at two valid readings of the clock
    get the same default name exactly when the readings fall in the same
    second: the name records the time to the second and no finer, and the
    time can be read back from it. *)
Theorem backup_name_same_second (p : PyPath.path) (t t' : datetime) :
  valid_datetime t -> valid_datetime t' ->
  (backup_name p t = backup_name p t' <-> same_second t t').
Proof.
  intros Ht Ht'; split.
  - unfold backup_name; intros H.
    apply append_cancel_left in H; apply append_cancel_left in H.
    apply append_cancel_right in H.
    now apply strftime_backup_same_second.
  - intros (Ey & Em & Ed & EH & EM & ES).
    unfold backup_name, strftime_backup.
    now rewrite Ey, Em, Ed, EH, EM, ES.
Qed.

Lemma backup_name_same_second_witness :
  backup_name (get_db_path "main.db") Demo.noon
  = backup_name (get_db_path "main.db") (mkDatetime 2024 3 9 12 0 5 250)
  <-> same_second Demo.noon (mkDatetime 2024 3 9 12 0 5 250).
Proof.
  apply (backup_name_same_second (get_db_path "main.db") Demo.noon
           (mkDatetime 2024 3 9 12 0 5 250));
    unfold valid_datetime; cbn; lia.
Defined.

(** ** [optimize_database] once more *)

(** X25. Whatever the engine does and whatever the database name,
    [optimize_database] has the engine execute nothing but VACUUM and
    ANALYZE, and closes neither of the two connections it opens. *)
Theorem optimize_database_statements (E : Engine) (db : string)
    (s : eng_state E) :
  Forall (fun ev => query_event "VACUUM" ev \/ query_event "ANALYZE" ev)
    (w_trace (fst (run (optimize_database E db) s))).
Proof.
  apply emits_run; unfold optimize_database.
  apply emits_bind.
  - apply (emits_weaken E (query_event "VACUUM")); [now left|].
    apply execute_query_emits.
  - intros vac; apply emits_bind.
    + apply (emits_weaken E (query_event "ANALYZE")); [now right|].
      apply execute_query_emits.
    + intros ana; apply emits_bind; [apply emits_now|].
      intros t; apply emits_ret.
Qed.
